(** * ilastik cluster operators: a shallow embedding of [ilastik/clusterOps.py]

    The development follows the Python source function by function:
    [Timer.seconds], [OpClusterize._getRoiList], [_prepareTaskInfos],
    [_copyFinishedResults], [_checkForFailures], [OpClusterize.execute]
    and [OpTaskWorker.execute].  Python exceptions are the [Raise] case
    of [result]; the file system and the clock are explicit state. *)

From Stdlib Require Import Ascii.
From stdpp Require Import base numbers list strings gmap pretty.

Local Open Scope string_scope.
Local Open Scope Z_scope.

(** ** Exceptions and results *)

Inductive exn : Type :=
  | ZeroDivisionError
  | ValueError
  | AssertionError
  | RuntimeError
  | KeyError
  | IOError
  | OSError
  | TypeError.

Inductive result (A : Type) : Type :=
  | Ok (a : A)
  | Raise (e : exn).
Arguments Ok {A} a.
Arguments Raise {A} e.

#[global] Instance result_ret : MRet result := fun A a => Ok a.
#[global] Instance result_bind : MBind result := fun A B f r =>
  match r with
  | Ok a => f a
  | Raise e => Raise e
  end.

(** A list built element by element; the first exception wins. *)
Fixpoint mapR {A B} (f : A -> result B) (l : list A) : result (list B) :=
  match l with
  | [] => Ok []
  | a :: l' => b ← f a; bs ← mapR f l'; Ok (b :: bs)
  end.

Definition is_Raise {A} (r : result A) : Prop :=
  match r with Raise _ => True | Ok _ => False end.

(** ** Python and numpy primitives used by the partitioner *)

(** [s.find(sub)]: lowest index of [sub] in [s], or [-1]. *)
Fixpoint find_from (sub s : string) (i : Z) : Z :=
  if String.prefix sub s then i
  else match s with
       | EmptyString => -1
       | String _ s' => find_from sub s' (i + 1)
       end.

Definition py_find (s sub : string) : Z := find_from sub s 0.

(** [sub in s] on Python strings is substring containment. *)
Definition str_in (sub s : string) : bool := negb (py_find s sub =? -1).

(** Length of Python 2's [range(0, stop, step)] for a non-zero step. *)
Definition range_len (stop step : Z) : Z :=
  if 0 <? step then (if 0 <? stop then (stop - 1) / step + 1 else 0)
  else (if stop <? 0 then (- stop - 1) / (- step) + 1 else 0).

Definition range_elems (stop step : Z) : list Z :=
  map (fun i => Z.of_nat i * step) (seq 0 (Z.to_nat (range_len stop step))).

(** [range(0, stop, step)]; a zero step raises [ValueError]. *)
Definition py_range0 (stop step : Z) : result (list Z) :=
  if step =? 0 then Raise ValueError else Ok (range_elems stop step).

(** [itertools.product] of a list of lists: the last one varies fastest. *)
Fixpoint product {A} (ls : list (list A)) : list (list A) :=
  match ls with
  | [] => [[]]
  | l :: ls' => flat_map (fun x => map (cons x) (product ls')) l
  end.

(** numpy arrays built from Python ints hold 64-bit signed integers:
    element-wise addition wraps around. *)
Definition wrap64 (z : Z) : Z := (z + 2 ^ 63) mod 2 ^ 64 - 2 ^ 63.

Definition np_add (a b : list Z) : list Z :=
  zip_with (fun x y => wrap64 (x + y)) a b.

Definition np_minimum (a b : list Z) : list Z := zip_with Z.min a b.

Definition np_subtract (a b : list Z) : list Z :=
  zip_with (fun x y => wrap64 (x - y)) a b.

(** ** Regions *)

(** A region of interest is the pair [(start, stop)]. *)
Definition roi : Type := list Z * list Z.

(** A tagged shape is the ordered dictionary of [(axis key, extent)]
    that [getTaggedShape] returns; the plain shape is its extents. *)
Definition tagged_shape : Type := list (string * Z).

Definition shape_of (taggedShape : tagged_shape) : list Z := taggedShape.*2.

(** ** OpClusterize._getRoiList *)

Section Partitioner.

(** [pow_round numJobs n] stands for the floating-point expression
    [int(round(math.pow(numJobs, 1.0/n)))] for [n >= 1]: the C
    library's [pow] is not fixed by the language, so it is a
    parameter; [Raise] is the exception [math.pow] throws. *)
Variable pow_round : Z -> nat -> result Z.

Definition spaceDims (taggedShape : tagged_shape) : tagged_shape :=
  filter (fun kd => str_in kd.1 "xyz" && (1 <? kd.2) = true) taggedShape.

Definition numJobsPerSpaceDim (taggedShape : tagged_shape) (numJobs : Z)
  : result Z :=
  match length (spaceDims taggedShape) with
  | O => Raise ZeroDivisionError
  | S n => pow_round numJobs (S n)
  end.

(** Python 2 integer division floors, as [Z.div] does; division by
    zero raises. *)
Definition py_div (a b : Z) : result Z :=
  if b =? 0 then Raise ZeroDivisionError else Ok (a / b).

Definition roiShape (taggedShape : tagged_shape) (k : Z) : result (list Z) :=
  mapR (fun kd : string * Z =>
          if bool_decide (kd.1 ∈ (spaceDims taggedShape).*1)
          then py_div kd.2 k
          else Ok kd.2)
       taggedShape.

(** Lines 207-213: the grid of blocks of shape [blockShape] clipped to
    [inputShape]. *)
Definition roi_grid (inputShape blockShape : list Z) : result (list roi) :=
  ranges ← mapR (fun ss : Z * Z => py_range0 ss.1 ss.2)
                 (zip inputShape blockShape);
  Ok (map (fun indices : list Z =>
             (indices, np_minimum (np_add indices blockShape) inputShape))
          (product ranges)).

Definition _getRoiList (taggedShape : tagged_shape) (numJobs : Z)
  : result (list roi) :=
  k ← numJobsPerSpaceDim taggedShape numJobs;
  blockShape ← roiShape taggedShape k;
  roi_grid (shape_of taggedShape) blockShape.

End Partitioner.

(** The exact value of [int(round(J ** (1.0/n)))]: for [J >= 0] the
    number of [m >= 1] with [m - 1/2 <= J^(1/n)]; a negative base with
    a fractional exponent is a domain error of [math.pow].  The float
    computation agrees with it as long as its rounding error is smaller
    than the distance of the root to the nearest half-integer. *)
Definition exact_pow_round (J : Z) (n : nat) : result Z :=
  if J <? 0 then (if (n =? 1)%nat then Ok J else Raise ValueError)
  else Ok (Z.of_nat (length (filter
         (fun m => (2 * m - 1) ^ Z.of_nat n <= 2 ^ Z.of_nat n * J)
         (seqZ 1 J)))).

(** ** Points, membership and tilings *)

Fixpoint in_box (start stop p : list Z) : bool :=
  match start, stop, p with
  | [], [], [] => true
  | a :: start', b :: stop', x :: p' =>
      (a <=? x) && (x <? b) && in_box start' stop' p'
  | _, _, _ => false
  end.

Definition in_roi (p : list Z) (r : roi) : bool := in_box r.1 r.2 p.

Definition in_shape (shape p : list Z) : bool :=
  in_box (map (fun _ => 0) shape) shape p.

Definition roi_nonempty (r : roi) : Prop := Forall2 Z.lt r.1 r.2.

Definition pairwise_disjoint (rois : list roi) : Prop :=
  forall i j r1 r2 p,
    rois !! i = Some r1 -> rois !! j = Some r2 -> i <> j ->
    ~ (in_roi p r1 = true /\ in_roi p r2 = true).

Definition covers (shape : list Z) (rois : list roi) : Prop :=
  forall p, in_shape shape p = true <-> exists r, r ∈ rois /\ in_roi p r = true.

(** Extents a dataset can have: non-negative and small enough that
    numpy's 64-bit index arithmetic does not overflow. *)
Definition shape_wf (taggedShape : tagged_shape) : Prop :=
  Forall (fun d => 0 <= d < 2 ^ 62) (shape_of taggedShape).

(** A block size [s] that tiles an axis of extent [d]. *)
Definition good_axis (d s : Z) : Prop := 0 < s /\ s <= d /\ d < 2 ^ 62.

(** The start of the block that holds the point [p]. *)
Definition block_start (p blockShape : list Z) : list Z :=
  zip_with (fun x s => x / s * s) p blockShape.

Definition cell (inputShape blockShape indices : list Z) : roi :=
  (indices, np_minimum (np_add indices blockShape) inputShape).

(** The block size [_getRoiList] gives an axis. *)
Definition block_of (taggedShape : tagged_shape) (k : Z) (kd : string * Z) : Z :=
  if bool_decide (kd.1 ∈ (spaceDims taggedShape).*1) then kd.2 / k else kd.2.


(** What the specification promises of a partition. *)
Definition is_partition (shape : list Z) (rois : list roi) : Prop :=
  rois <> [] /\ pairwise_disjoint rois /\ covers shape rois.

Definition partitions (pow_round : Z -> nat -> result Z)
    (taggedShape : tagged_shape) (numJobs : Z) : Prop :=
  exists rois, _getRoiList pow_round taggedShape numJobs = Ok rois
               /\ is_partition (shape_of taggedShape) rois.

Definition scenario_A_shape : tagged_shape := [("x", 100); ("y", 100); ("z", 30)].

(** The single region that covers a whole shape. *)
Definition whole_shape (shape : list Z) : roi := (map (fun _ => 0) shape, shape).

(** C8 as the specification words it. *)
Definition falls_back (pow_round : Z -> nat -> result Z)
    (taggedShape : tagged_shape) (numJobs : Z) : Prop :=
  numJobs <= 0 \/ spaceDims taggedShape = [] ->
  _getRoiList pow_round taggedShape numJobs
  = Ok [whole_shape (shape_of taggedShape)].


(** ** Time: [datetime], [timedelta] and the class [Timer] *)

(** A [timedelta] is kept normalised by Python:
    [0 <= seconds < 86400] and [0 <= microseconds < 1000000]. *)
Record timedelta : Type := { days : Z; seconds : Z; microseconds : Z }.

(** A [datetime] is a number of microseconds; [a - b] is their
    difference as a [timedelta]. *)
Definition datetime_sub (a b : Z) : timedelta :=
  {| days := (a - b) / 86400000000;
     seconds := ((a - b) / 1000000) mod 86400;
     microseconds := (a - b) mod 1000000 |}.

Record Timer : Type := { startTime : option Z; stopTime : option Z }.

Definition Timer_init : Timer := {| startTime := None; stopTime := None |}.

Definition Timer_enter (now : Z) (t : Timer) : Timer :=
  {| startTime := Some now; stopTime := stopTime t |}.

Definition Timer_exit (now : Z) (t : Timer) : Timer :=
  {| startTime := startTime t; stopTime := Some now |}.

(** [Timer.seconds], called at time [now]: the [seconds] attribute of
    the elapsed [timedelta]. *)
Definition Timer_seconds (t : Timer) (now : Z) : result Z :=
  match startTime t with
  | None => Raise AssertionError
  | Some start =>
      match stopTime t with
      | None => Ok (seconds (datetime_sub now start))
      | Some stop => Ok (seconds (datetime_sub stop start))
      end
  end.

(** ** The file system *)

(** An HDF5 dataset: shape, element type, attributes and the values
    stored at each coordinate. *)
Record dataset : Type := {
  ds_shape : list Z;
  ds_dtype : string;
  ds_attrs : gmap string string;
  ds_data : gmap (list Z) Z
}.

Inductive file : Type :=
  | TextFile (content : string)
  | H5File (datasets : gmap string dataset)
  | PartialFile (blocks : nat)  (** a file that is still being written *)
  | Directory.

(** What the coordinator can touch: the files, and the commands it has
    handed to [subprocess.call] so far. *)
Record world : Type := { files : gmap string file; spawned : list string }.

Definition set_files (f : gmap string file -> gmap string file) (w : world) : world :=
  {| files := f (files w); spawned := spawned w |}.

(** Computations that read and change the world and may raise. *)
Definition M (A : Type) : Type := world -> result A * world.

#[global] Instance M_ret : MRet M := fun A a w => (Ok a, w).
#[global] Instance M_bind : MBind M := fun A B f m w =>
  match m w with
  | (Ok a, w') => f a w'
  | (Raise e, w') => (Raise e, w')
  end.

Definition raise {A} (e : exn) : M A := fun w => (Raise e, w).
Definition lift {A} (r : result A) : M A := fun w => (r, w).
Definition py_assert (b : bool) : M unit :=
  if b then mret tt else raise AssertionError.

Definition os_path_exists (path : string) : M bool :=
  fun w => (Ok (bool_decide (is_Some (files w !! path))), w).

Definition os_remove (path : string) : M unit := fun w =>
  match files w !! path with
  | Some Directory | None => (Raise OSError, w)
  | Some _ => (Ok tt, set_files (delete path) w)
  end.

(** The last character of a string. *)
Fixpoint str_last (s : string) : option ascii :=
  match s with
  | EmptyString => None
  | String c s' =>
      match s' with
      | EmptyString => Some c
      | _ => str_last s'
      end
  end.

(** [os.path.join] of two components on a POSIX system. *)
Definition os_path_join (a b : string) : string :=
  if String.prefix "/" b then b
  else if bool_decide (a = "") || bool_decide (str_last a = Some "/"%char)
       then a +:+ b
       else a +:+ "/" +:+ b.

(** [str] of a tuple of integers, and of a pair of such tuples. *)
Fixpoint py_join (sep : string) (l : list string) : string :=
  match l with
  | [] => ""
  | [s] => s
  | s :: l' => s +:+ sep +:+ py_join sep l'
  end.

Definition str_tuple (t : list Z) : string :=
  match t with
  | [] => "()"
  | [x] => "(" +:+ pretty x +:+ ",)"
  | _ => "(" +:+ py_join ", " (map pretty t) +:+ ")"
  end.

Definition str_roi (r : roi) : string :=
  "(" +:+ str_tuple r.1 +:+ ", " +:+ str_tuple r.2 +:+ ")".

(** [STATUS_FILE_NAME_FORMAT] and [OUTPUT_FILE_NAME_FORMAT], applied. *)
Definition status_file_name (taskName roiStr : string) : string :=
  taskName +:+ " status " +:+ roiStr +:+ ".txt".

Definition output_file_name (taskName roiStr : string) : string :=
  taskName +:+ " output " +:+ roiStr +:+ ".h5".

(** [h5py.File(path, 'r')]. *)
Definition h5_open_read (path : string) : M (gmap string dataset) := fun w =>
  match files w !! path with
  | Some (H5File h) => (Ok h, w)
  | _ => (Raise IOError, w)
  end.

(** [numpy.all(shape == expected)] for a tuple and an array: the
    comparison is element-wise, a sequence of length 1 is broadcast
    against the other one, and sequences that cannot be broadcast
    compare as [False]. *)
Definition np_all_eq (shape expected : list Z) : bool :=
  if bool_decide (length shape = length expected)
  then bool_decide (shape = expected)
  else match shape, expected with
       | [x], _ => forallb (Z.eqb x) expected
       | _, [y] => forallb (fun x => x =? y) shape
       | _, _ => false
       end.

(** ** OpClusterize *)

Record slot_meta : Type := {
  meta_shape : tagged_shape;
  meta_dtype : string;
  meta_axistags : string  (** [axistags.toJSON()] *)
}.

Record cluster_inputs : Type := {
  ProjectFilePath : string;
  ScratchDirectory : string;
  CommandFormat : string;
  WorkflowTypeName : string;
  NumJobs : Z;
  TaskTimeoutSeconds : Z;
  Input_meta : slot_meta;
  OutputFilePath : string
}.

Record TaskInfo : Type := {
  taskName : string;
  command : string;
  statusFilePath : string;
  outputFilePath : string;
  subregion : roi
}.

(** What surrounds the coordinator: the clock readings and what the
    worker processes do to the file system while it sleeps. *)
Record environment : Type := {
  time_start : Z;            (** the clock when the timer is entered *)
  time_check : nat -> Z;     (** the clock at the n-th timeout check *)
  workers : nat -> gmap string file -> gmap string file
                             (** the files after the n-th sleep *)
}.

(** Library code the coordinator calls and that lives outside the
    repository, and the order in which a Python dictionary lists its
    entries. *)
Record externals : Type := {
  ext_pow_round : Z -> nat -> result Z;
      (** [int(round(math.pow(numJobs, 1.0/n)))] *)
  Roi_dumps : roi -> string;
      (** [Roi.dumps] of the sub-region with these bounds *)
  str_format : string -> string -> string -> result string;
      (** [fmt.format(args=..., task_name=...)] *)
  h5_setitem : dataset -> roi -> dataset -> result dataset;
      (** [dest[key] = src[:]] on h5py datasets, [key] the slice of a region *)
  dict_items : gmap roi TaskInfo -> list (roi * TaskInfo);
      (** [d.items()] *)
  tempfile_tempdir : option string
}.

Definition dquote : string := String (ascii_of_nat 34) EmptyString.

Section OpClusterize.

Variable ext : externals.
Variable inputs : cluster_inputs.
Variable env : environment.

(** One round of the loop of [_prepareTaskInfos] (lines 224-261). *)
Definition prepare_task (taskInfos : gmap roi TaskInfo) (roiIndex : nat) (r : roi)
  : M (gmap roi TaskInfo) :=
  let name := "TASK_" +:+ pretty roiIndex in
  let statusPath :=
    os_path_join (ScratchDirectory inputs) (status_file_name name (str_roi r)) in
  let outputPath :=
    os_path_join (ScratchDirectory inputs) (output_file_name name (str_roi r)) in
  let commandArgs :=
    ([ "--workflow_type=" +:+ WorkflowTypeName inputs;
      "--project=" +:+ ProjectFilePath inputs;
      "--scratch_directory=" +:+ ScratchDirectory inputs;
      "--_node_work_=" +:+ dquote +:+ Roi_dumps ext r +:+ dquote;
      "--process_name=" +:+ name ]
    ++ match tempfile_tempdir ext with
       | Some d => [ "--sys_tmp_dir=" +:+ d ]
       | None => []
       end)%list in
  _ ← py_assert (negb (py_find (CommandFormat inputs) "{args}" =? -1));
  let allArgs := " " +:+ py_join " " commandArgs +:+ " " in
  cmd ← lift (str_format ext (CommandFormat inputs) allArgs name);
  let taskInfo :=
    {| taskName := name; command := cmd; statusFilePath := statusPath;
       outputFilePath := outputPath; subregion := r |} in
  let taskInfos' := <[r := taskInfo]> taskInfos in
  stale ← os_path_exists statusPath;
  _ ← (if stale : bool then os_remove statusPath else mret tt);
  stale' ← os_path_exists outputPath;
  _ ← (if stale' : bool then os_remove outputPath else mret tt);
  mret taskInfos'.

Fixpoint prepare_loop (l : list (nat * roi)) (taskInfos : gmap roi TaskInfo)
  : M (gmap roi TaskInfo) :=
  match l with
  | [] => mret taskInfos
  | (roiIndex, r) :: l' =>
      taskInfos' ← prepare_task taskInfos roiIndex r;
      prepare_loop l' taskInfos'
  end.

Definition _prepareTaskInfos : M (gmap roi TaskInfo) :=
  rois ← lift (_getRoiList (ext_pow_round ext) (meta_shape (Input_meta inputs))
                           (NumJobs inputs));
  prepare_loop (zip (seq 0 (length rois)) rois) ∅.

(** The four checks of lines 282-285 on an opened result file. *)
Definition check_result (f : gmap string dataset) (r : roi) : result dataset :=
  match f !! "node_result" with
  | None => Raise AssertionError
  | Some d =>
      if negb (np_all_eq (ds_shape d) (np_subtract r.2 r.1))
      then Raise AssertionError
      else if negb (bool_decide (ds_dtype d = meta_dtype (Input_meta inputs)))
      then Raise AssertionError
      else match ds_attrs d !! "axistags" with
           | None => Raise KeyError
           | Some tags =>
               if bool_decide (tags = meta_axistags (Input_meta inputs))
               then Ok d
               else Raise AssertionError
           end
  end.

(** Lines 288-291: [h5py.File(path)] opens the file for appending,
    creating it when it is missing, and [cluster_result] is created
    when the file does not have it. *)
Definition new_cluster_result : dataset :=
  {| ds_shape := shape_of (meta_shape (Input_meta inputs));
     ds_dtype := meta_dtype (Input_meta inputs);
     ds_attrs := ∅; ds_data := ∅ |}.

Definition open_destination : M unit := fun w =>
  match files w !! OutputFilePath inputs with
  | None =>
      (Ok tt, set_files (insert (OutputFilePath inputs)
                           (H5File {[ "cluster_result" := new_cluster_result ]})) w)
  | Some (H5File h) =>
      match h !! "cluster_result" with
      | Some _ => (Ok tt, w)
      | None =>
          (Ok tt, set_files (insert (OutputFilePath inputs)
                               (H5File (<["cluster_result" := new_cluster_result]> h))) w)
      end
  | Some _ => (Raise IOError, w)
  end.

(** Line 297: the result is stored in the region's slice of
    [cluster_result]. *)
Definition write_result (r : roi) (src : dataset) : M unit := fun w =>
  match files w !! OutputFilePath inputs with
  | Some (H5File h) =>
      match h !! "cluster_result" with
      | None => (Raise KeyError, w)
      | Some dest =>
          match h5_setitem ext dest r src with
          | Raise e => (Raise e, w)
          | Ok dest' =>
              (Ok tt, set_files (insert (OutputFilePath inputs)
                                   (H5File (<["cluster_result" := dest']> h))) w)
          end
      end
  | _ => (Raise IOError, w)
  end.

(** The body of the loop of [_copyFinishedResults] for one entry
    (lines 269-311); [destinationOpen] tells whether
    [destinationFile] is set.  The answer is whether the entry was
    copied, or skipped by [continue]. *)
Definition copy_task (r : roi) (taskInfo : TaskInfo) (destinationOpen : bool)
  : M bool :=
  done ← os_path_exists (statusFilePath taskInfo);
  if negb done then mret false
  else
    present ← os_path_exists (outputFilePath taskInfo);
    if negb present then raise RuntimeError
    else
      f ← h5_open_read (outputFilePath taskInfo);
      node_result ← lift (check_result f r);
      _ ← (if destinationOpen then mret tt else open_destination);
      _ ← write_result (subregion taskInfo) node_result;
      mret true.

Fixpoint copy_loop (items : list (roi * TaskInfo)) (finished_rois : list roi)
    (destinationOpen : bool) : M (list roi) :=
  match items with
  | [] => mret finished_rois
  | (r, taskInfo) :: items' =>
      copied ← copy_task r taskInfo destinationOpen;
      if copied : bool
      then copy_loop items' (finished_rois ++ [r])%list true
      else copy_loop items' finished_rois destinationOpen
  end.

Definition _copyFinishedResults (taskInfos : gmap roi TaskInfo) : M (list roi) :=
  copy_loop (dict_items ext taskInfos) [] false.

Definition _checkForFailures (taskInfos : gmap roi TaskInfo) : list roi := [].

(** [del taskInfos[roi]] for each of the given keys. *)
Definition del_all (taskInfos : gmap roi TaskInfo) (rois : list roi)
  : gmap roi TaskInfo :=
  foldl (fun m r => delete r m) taskInfos rois.

(** Lines 162-177: what one round of polling does after its sleep. *)
Definition poll_pass (taskInfos : gmap roi TaskInfo) (success : bool)
  : M (gmap roi TaskInfo * bool) :=
  finished_rois ← _copyFinishedResults taskInfos;
  let taskInfos := del_all taskInfos finished_rois in
  let failed_rois := _checkForFailures taskInfos in
  let success := if bool_decide (0 < length failed_rois)%nat then false else success in
  let taskInfos := del_all taskInfos failed_rois in
  mret (taskInfos, success).

(** The [while] loop of [execute] (lines 151-177), from its n-th
    round on.  [None] means that it is still polling when the fuel
    runs out; otherwise the result holds [success] and the tasks
    still polled for. *)
Fixpoint execute_loop (fuel n : nat) (totalTimer : Timer)
    (taskInfos : gmap roi TaskInfo) (success : bool) (w : world)
  : option (result (bool * gmap roi TaskInfo) * world) :=
  if bool_decide (size taskInfos = 0%nat) then Some (Ok (success, taskInfos), w)
  else
    match Timer_seconds totalTimer (time_check env n) with
    | Raise e => Some (Raise e, w)
    | Ok elapsed =>
        if TaskTimeoutSeconds inputs <=? elapsed
        then Some (Ok (false, taskInfos), w)
        else
          match fuel with
          | O => None
          | S fuel' =>
              match poll_pass taskInfos success (set_files (workers env n) w) with
              | (Raise e, w') => Some (Raise e, w')
              | (Ok (taskInfos', success'), w') =>
                  execute_loop fuel' (S n) totalTimer taskInfos' success' w'
              end
          end
    end.

Definition spawn (cmd : string) (w : world) : world :=
  {| files := files w; spawned := (spawned w ++ [cmd])%list |}.

(** [OpClusterize.execute]: the value stored in [result[0]]. *)
Definition execute (fuel : nat) (w : world) : option (result bool * world) :=
  match _prepareTaskInfos w with
  | (Raise e, w) => Some (Raise e, w)
  | (Ok taskInfos, w) =>
      let w := foldl (fun w taskInfo => spawn (command taskInfo) w) w
                     (dict_items ext taskInfos).*2 in
      let totalTimer := Timer_enter (time_start env) Timer_init in
      match execute_loop fuel 0 totalTimer taskInfos true w with
      | None => None
      | Some (Raise e, w) => Some (Raise e, w)
      | Some (Ok (success, _), w) => Some (Ok success, w)
      end
  end.

End OpClusterize.

(** [main] of the command-line front end: any exception, and a false
    result (through [assert result]), gives exit code 1. *)
Definition main_exit_code (r : result bool) : Z :=
  match r with
  | Ok true => 0
  | _ => 1
  end.

(** ** OpTaskWorker *)

(** The inputs of one worker process, and what its run depends on
    outside the repository: the region [Roi.loads] decodes, the
    directory [tempfile.mkdtemp] makes, the dataset the write operator
    produces, and in how many blocks the two files get written. *)
Record worker_run : Type := {
  wk_ScratchDirectory : string;
  wk_RoiString : string;
  wk_TaskName : string;
  wk_roi : roi;
  wk_tempDir : string;
  wk_node_result : dataset;
  wk_write_blocks : nat;
  wk_copy_blocks : nat
}.

Section OpTaskWorker.

Variable run : worker_run.

Definition wk_statusFilePath : string :=
  os_path_join (wk_ScratchDirectory run)
               (status_file_name (wk_TaskName run) (str_roi (wk_roi run))).

Definition wk_outputFilePath : string :=
  os_path_join (wk_ScratchDirectory run)
               (output_file_name (wk_TaskName run) (str_roi (wk_roi run))).

Definition wk_tmpOutputFile : string :=
  os_path_join (wk_tempDir run) (wk_RoiString run +:+ ".h5").

(** The result file once it is complete. *)
Definition wk_result_file : file :=
  H5File {[ "node_result" := wk_node_result run ]}.

(** What [OpTaskWorker.execute] does to the file system, one step at
    a time: every state in between can be seen by the coordinator. *)
Definition worker_steps : list (gmap string file -> gmap string file) :=
  (* tempfile.mkdtemp() *)
  [ insert (wk_tempDir run) Directory ]
  (* h5py.File(tmpOutputFile, 'w') and the writes of the operator *)
  ++ map (fun i => insert wk_tmpOutputFile (PartialFile i))
         (seq 0 (S (wk_write_blocks run)))
  (* leaving the [with] block closes the file *)
  ++ [ insert wk_tmpOutputFile wk_result_file ]
  (* shutil.copyfile opens the target for writing and copies block by block *)
  ++ map (fun i => insert wk_outputFilePath (PartialFile i))
         (seq 0 (S (wk_copy_blocks run)))
  ++ [ fun fs => match fs !! wk_tmpOutputFile with
                 | Some f => <[wk_outputFilePath := f]> fs
                 | None => fs
                 end ]
  (* file(statusFilePath, 'w') and the buffered write('Yay!') *)
  ++ [ insert wk_statusFilePath (TextFile "");
       insert wk_statusFilePath (TextFile "Yay!") ].

Definition run_steps (steps : list (gmap string file -> gmap string file))
    (fs : gmap string file) : gmap string file :=
  foldl (fun fs step => step fs) fs steps.

(** The file system after the first [n] steps of the worker. *)
Definition worker_state (n : nat) (fs : gmap string file) : gmap string file :=
  run_steps (take n worker_steps) fs.

(** The temporary directory is the worker's own. *)
Definition private_tmp : Prop :=
  wk_tempDir run <> wk_statusFilePath /\ wk_tempDir run <> wk_outputFilePath
  /\ wk_tmpOutputFile <> wk_statusFilePath /\ wk_tmpOutputFile <> wk_outputFilePath.

End OpTaskWorker.

(** ** A concrete instance, for examples *)

(** [str.format] for templates whose only fields are [{args}] and
    [{task_name}], each at most once. *)
Fixpoint replace_first (pat by_ s : string) (fuel : nat) : string :=
  match fuel with
  | O => s
  | S fuel' =>
      if String.prefix pat s
      then by_ +:+ String.substring (String.length pat)
                     (String.length s - String.length pat) s
      else match s with
           | EmptyString => EmptyString
           | String c s' => String c (replace_first pat by_ s' fuel')
           end
  end.

Definition simple_format (fmt args task_name : string) : result string :=
  let s := replace_first "{args}" args fmt (S (String.length fmt)) in
  Ok (replace_first "{task_name}" task_name s (S (String.length s))).

(** The index in a source block of the value that numpy's broadcasting
    puts at offset [o] of a slice: shapes are aligned at the last axis,
    an axis of length 1 is repeated, missing leading axes are repeated,
    and extra leading axes must have length 1.  All three lists are
    given last axis first; [None] when the shapes cannot be broadcast. *)
Fixpoint broadcast_index (s t o : list Z) : option (list Z) :=
  match s, t, o with
  | [], _, _ => Some []
  | a :: s', b :: t', x :: o' =>
      if a =? b then cons x <$> broadcast_index s' t' o'
      else if a =? 1 then cons 0 <$> broadcast_index s' t' o'
      else None
  | _ :: _, _, _ =>
      if forallb (fun a => a =? 1) s then Some (map (fun _ => 0) s) else None
  end.

Definition source_index (src_shape slice_shape offset : list Z) : option (list Z) :=
  reverse <$> broadcast_index (reverse src_shape) (reverse slice_shape) (reverse offset).

(** [dest[key] = src] of h5py: every point of the slice gets the value
    at the same offset in the source; a source of another shape is
    broadcast to the slice when numpy's rules allow it, and refused
    with [TypeError] otherwise. *)
Definition store_block (dest : dataset) (key : roi) (src : dataset) : result dataset :=
  if bool_decide (ds_shape src = np_subtract key.2 key.1)
  then Ok {| ds_shape := ds_shape dest; ds_dtype := ds_dtype dest;
             ds_attrs := ds_attrs dest;
             ds_data :=
               foldr (fun p data =>
                        match ds_data src !! zip_with Z.sub p key.1 with
                        | Some v => <[p := v]> data
                        | None => delete p data
                        end)
                     (ds_data dest)
                     (product (zip_with (fun a b => seqZ a (b - a)) key.1 key.2)) |}
  else if bool_decide (is_Some (source_index (ds_shape src) (np_subtract key.2 key.1)
                                             (map (fun _ => 0) key.1)))
  then Ok {| ds_shape := ds_shape dest; ds_dtype := ds_dtype dest;
             ds_attrs := ds_attrs dest;
             ds_data :=
               foldr (fun p data =>
                        match source_index (ds_shape src) (np_subtract key.2 key.1)
                                           (zip_with Z.sub p key.1)
                              ≫= (ds_data src !!.) with
                        | Some v => <[p := v]> data
                        | None => delete p data
                        end)
                     (ds_data dest)
                     (product (zip_with (fun a b => seqZ a (b - a)) key.1 key.2)) |}
  else Raise TypeError.

Definition sample_ext : externals :=
  {| ext_pow_round := exact_pow_round;
     Roi_dumps := str_roi;
     str_format := simple_format;
     h5_setitem := store_block;
     dict_items := map_to_list;
     tempfile_tempdir := None |}.

Definition sample_meta : slot_meta :=
  {| meta_shape := [("x", 4); ("c", 2)]; meta_dtype := "float32";
     meta_axistags := "xc" |}.

Definition sample_inputs (fmt : string) (numJobs timeout : Z) : cluster_inputs :=
  {| ProjectFilePath := "p.ilp"; ScratchDirectory := "/scratch";
     CommandFormat := fmt; WorkflowTypeName := "W"; NumJobs := numJobs;
     TaskTimeoutSeconds := timeout; Input_meta := sample_meta;
     OutputFilePath := "/out.h5" |}.

(** A clock that advances by 15 seconds per round, and workers that
    never write anything. *)
Definition idle_env : environment :=
  {| time_start := 0;
     time_check := fun n => Z.of_nat n * 15000000;
     workers := fun _ fs => fs |}.

(** The same with rounds that last an hour. *)
Definition hourly_env : environment :=
  {| time_start := 0;
     time_check := fun n => Z.of_nat n * 3600000000;
     workers := fun _ fs => fs |}.

Definition empty_world : world := {| files := ∅; spawned := [] |}.

(** ** Predicates used in the statements *)

(** A dictionary lists each of its entries once, in an order of its own. *)
Definition dict_order_ok (ext : externals) : Prop :=
  forall m, dict_items ext m ≡ₚ map_to_list m.

(** The result file fails one of the checks of [_copyFinishedResults]. *)
Definition fails_validation (inputs : cluster_inputs)
    (f : gmap string dataset) (r : roi) : Prop :=
  is_Raise (check_result inputs f r).



(** A task whose marker is there and whose result cannot be merged:
    the output file is missing, is not an HDF5 file, or fails the
    checks. *)
Definition doomed (inputs : cluster_inputs) (r : roi) (taskInfo : TaskInfo)
    (fs : gmap string file) : Prop :=
  is_Some (fs !! statusFilePath taskInfo)
  /\ match fs !! outputFilePath taskInfo with
     | Some (H5File f) => fails_validation inputs f r
     | _ => True
     end.

(** One update of the consolidated output file: it is created or
    rewritten as an HDF5 file, and its [node_result] entry, if any, is
    left alone. *)
Definition dest_step (inputs : cluster_inputs) (fs fs' : gmap string file) : Prop :=
  fs' = fs
  \/ exists h',
      fs' = <[OutputFilePath inputs := H5File h']> fs
      /\ match fs !! OutputFilePath inputs with
         | None => h' !! "node_result" = None
         | Some (H5File h) => h' !! "node_result" = h !! "node_result"
         | Some _ => False
         end.

(** C7 as the specification words it: the round goes on, with the
    task dropped from the active set and the run marked as failed. *)
Definition drops_failed_task (ext : externals) (inputs : cluster_inputs)
    (taskInfos : gmap roi TaskInfo) (success : bool) (w : world) (r : roi) : Prop :=
  exists taskInfos' w',
    poll_pass ext inputs taskInfos success w = (Ok (taskInfos', false), w')
    /\ taskInfos' !! r = None.

(** No task of the set has written its marker. *)
Definition no_markers (taskInfos : gmap roi TaskInfo) (fs : gmap string file) : Prop :=
  forall r taskInfo, taskInfos !! r = Some taskInfo -> fs !! statusFilePath taskInfo = None.

(** A sequence of steps that starts where [Pre] holds keeps [Inv] in
    every state it goes through and ends where [Post] holds. *)
Definition along (Pre : gmap string file -> Prop)
    (steps : list (gmap string file -> gmap string file))
    (Inv Post : gmap string file -> Prop) : Prop :=
  forall fs, Pre fs ->
    (forall n, Inv (run_steps (take n steps) fs)) /\ Post (run_steps steps fs).

(** What every state of a worker's run satisfies, [fs0] being the file
    system it started from. *)
Definition worker_inv (run : worker_run) (fs0 fs : gmap string file) : Prop :=
  (is_Some (fs !! wk_statusFilePath run) ->
   fs !! wk_outputFilePath run = Some (wk_result_file run))
  /\ (fs !! wk_outputFilePath run = fs0 !! wk_outputFilePath run
      \/ fs !! wk_tmpOutputFile run = Some (wk_result_file run)).

(** Sample tasks, results and worlds. *)
Definition sample_roi : roi := ([0; 0], [2; 2]).

Definition sample_task : TaskInfo :=
  {| taskName := "TASK_0"; command := "run";
     statusFilePath := "/scratch/TASK_0 status ((0, 0), (2, 2)).txt";
     outputFilePath := "/scratch/TASK_0 output ((0, 0), (2, 2)).h5";
     subregion := sample_roi |}.

Definition sample_tasks : gmap roi TaskInfo := {[ sample_roi := sample_task ]}.

Definition sample_result (dtype : string) : dataset :=
  {| ds_shape := [2; 2]; ds_dtype := dtype;
     ds_attrs := {[ "axistags" := "xc" ]}; ds_data := ∅ |}.

(** Workers that write the marker of the sample task and nothing else. *)
Definition marker_only_env : environment :=
  {| time_start := 0;
     time_check := fun n => Z.of_nat n * 15000000;
     workers := fun _ fs => <[statusFilePath sample_task := TextFile "Yay!"]> fs |}.

(** Workers that write the marker and a result of the given element type. *)
Definition result_env (dtype : string) : environment :=
  {| time_start := 0;
     time_check := fun n => Z.of_nat n * 15000000;
     workers := fun _ fs =>
       <[statusFilePath sample_task := TextFile "Yay!"]>
         (<[outputFilePath sample_task :=
              H5File {[ "node_result" := sample_result dtype ]}]> fs) |}.

Definition sample_worker : worker_run :=
  {| wk_ScratchDirectory := "/scratch"; wk_RoiString := "roi";
     wk_TaskName := "TASK_0"; wk_roi := sample_roi; wk_tempDir := "/tmp/tmpA";
     wk_node_result := sample_result "float32";
     wk_write_blocks := 2; wk_copy_blocks := 1 |}.



(** ** The files of a task *)

(** The name, the two paths and the record that one round of
    [_prepareTaskInfos] computes for the region of index [roiIndex]. *)
Definition task_name (roiIndex : nat) : string := "TASK_" +:+ pretty roiIndex.

Definition task_status_path (inputs : cluster_inputs) (roiIndex : nat) (r : roi)
  : string :=
  os_path_join (ScratchDirectory inputs)
               (status_file_name (task_name roiIndex) (str_roi r)).

Definition task_output_path (inputs : cluster_inputs) (roiIndex : nat) (r : roi)
  : string :=
  os_path_join (ScratchDirectory inputs)
               (output_file_name (task_name roiIndex) (str_roi r)).

Definition mk_task (inputs : cluster_inputs) (roiIndex : nat) (r : roi)
    (cmd : string) : TaskInfo :=
  {| taskName := task_name roiIndex; command := cmd;
     statusFilePath := task_status_path inputs roiIndex r;
     outputFilePath := task_output_path inputs roiIndex r;
     subregion := r |}.

(** The worker process that a task's command starts: it gets the
    scratch directory and the task name on its command line, and its
    region by [Roi.loads] from the string [Roi.dumps] made. *)
Definition worker_of (ext : externals) (inputs : cluster_inputs)
    (Roi_loads : string -> roi) (taskInfo : TaskInfo)
    (tempDir : string) (node_result : dataset)
    (write_blocks copy_blocks : nat) : worker_run :=
  {| wk_ScratchDirectory := ScratchDirectory inputs;
     wk_RoiString := Roi_dumps ext (subregion taskInfo);
     wk_TaskName := taskName taskInfo;
     wk_roi := Roi_loads (Roi_dumps ext (subregion taskInfo));
     wk_tempDir := tempDir;
     wk_node_result := node_result;
     wk_write_blocks := write_blocks;
     wk_copy_blocks := copy_blocks |}.

(** The four paths a worker writes to. *)
Definition worker_paths (run : worker_run) : list string :=
  [wk_tempDir run; wk_tmpOutputFile run; wk_outputFilePath run;
   wk_statusFilePath run].
(** * Properties *)

(** ** The result monad *)

Lemma mapR_Ok_inv {A B} (f : A -> result B) l bs :
  mapR f l = Ok bs -> Forall2 (fun a b => f a = Ok b) l bs.
Proof.
  revert bs; induction l as [|a l IH]; intros bs H; simpl in H.
  - injection H as <-. constructor.
  - destruct (f a) as [b|e] eqn:Hfa; simpl in H; [|discriminate].
    destruct (mapR f l) as [bs'|e] eqn:Hl; simpl in H; [|discriminate].
    injection H as <-. constructor; auto.
Qed.

Lemma mapR_Ok_intro {A B} (f : A -> result B) l bs :
  Forall2 (fun a b => f a = Ok b) l bs -> mapR f l = Ok bs.
Proof.
  induction 1 as [|a b l bs Hab _ IH]; simpl; [done|].
  by rewrite Hab; simpl; rewrite IH.
Qed.

Lemma mapR_Raise {A B} (f : A -> result B) l e :
  (forall a, a ∈ l -> f a = Raise e \/ exists b, f a = Ok b) ->
  (exists a, a ∈ l /\ f a = Raise e) ->
  mapR f l = Raise e.
Proof.
  induction l as [|a l IH]; intros Hall [x [Hx Hfx]].
  - by apply elem_of_nil in Hx.
  - simpl. destruct (Hall a) as [Ha|[b Ha]]; [left| |]; rewrite Ha; simpl; [done|].
    apply elem_of_cons in Hx as [->|Hx]; [congruence|].
    rewrite IH; [done| |eauto].
    intros y Hy. apply Hall. by right.
Qed.

(** ** One axis *)

Lemma elem_of_range_elems stop step x :
  step <> 0 -> 0 <= stop ->
  x ∈ range_elems stop step <-> 0 < step /\ 0 <= x < stop /\ x / step * step = x.
Proof.
  intros Hstep Hstop. unfold range_elems, range_len.
  rewrite list_elem_of_fmap. setoid_rewrite elem_of_seq.
  destruct (0 <? step) eqn:Hpos.
  - apply Z.ltb_lt in Hpos. destruct (0 <? stop) eqn:Hs.
    + apply Z.ltb_lt in Hs.
      assert (Hq : 0 <= (stop - 1) / step) by (apply Z.div_pos; lia).
      split.
      * intros (i & -> & Hi).
        assert (Hi' : Z.of_nat i <= (stop - 1) / step) by lia.
        assert (Z.of_nat i * step <= (stop - 1) / step * step) by nia.
        pose proof (Z.mul_div_le (stop - 1) step Hpos).
        rewrite Z.div_mul by lia. lia.
      * intros (_ & Hx & Hmul). exists (Z.to_nat (x / step)).
        assert (0 <= x / step) by (apply Z.div_pos; lia).
        assert (x / step <= (stop - 1) / step) by (apply Z.div_le_mono; lia).
        split; [lia|lia].
    + apply Z.ltb_ge in Hs. split; [intros (i & _ & Hi); simpl in Hi; lia | lia].
  - apply Z.ltb_ge in Hpos.
    assert ((stop <? 0) = false) as -> by (apply Z.ltb_ge; lia).
    split; [intros (i & _ & Hi); simpl in Hi; lia | lia].
Qed.

Lemma NoDup_range_elems stop step : step <> 0 -> NoDup (range_elems stop step).
Proof.
  intros Hstep. unfold range_elems. apply NoDup_fmap_2; [|apply NoDup_seq].
  intros i j Hij. nia.
Qed.

(** ** Cartesian products *)

Lemma elem_of_product {A} (ls : list (list A)) (idx : list A) :
  idx ∈ product ls <-> Forall2 (fun i l => i ∈ l) idx ls.
Proof.
  revert idx; induction ls as [|l ls IH]; intros idx; simpl.
  - rewrite list_elem_of_singleton. split; [intros ->; constructor|].
    by inversion 1.
  - rewrite list_elem_of_In, in_flat_map. split.
    + intros (x & Hx & Hin). apply in_map_iff in Hin as (t & <- & Ht).
      constructor; [by apply list_elem_of_In|]. by apply IH, list_elem_of_In.
    + inversion 1 as [|x l' t ls' Hx Ht]; subst. exists x.
      split; [by apply list_elem_of_In|]. apply in_map_iff. exists t.
      split; [done|]. by apply list_elem_of_In, IH.
Qed.

Lemma NoDup_product {A} (ls : list (list A)) :
  Forall NoDup ls -> NoDup (product ls).
Proof.
  induction 1 as [|l ls Hl _ IH]; simpl; [apply NoDup_singleton|].
  induction Hl as [|x l Hx _ IHl]; simpl; [constructor|].
  apply NoDup_app. split; [|split; [|done]].
  - apply NoDup_fmap_2; [|done]. by intros t1 t2 [= ->].
  - intros y Hy Hy'. apply list_elem_of_fmap in Hy as (t & -> & _).
    apply list_elem_of_In, in_flat_map in Hy' as (x' & Hx' & Hin).
    apply in_map_iff in Hin as (t' & [= -> ->] & _).
    by apply Hx, list_elem_of_In.
Qed.

(** ** The grid of blocks *)

Lemma wrap64_small z : - 2 ^ 63 <= z < 2 ^ 63 -> wrap64 z = z.
Proof. intros Hz. unfold wrap64. rewrite Z.mod_small; lia. Qed.

Lemma ranges_Ok inputShape blockShape :
  Forall2 (fun _ s => s <> 0) inputShape blockShape ->
  mapR (fun ss : Z * Z => py_range0 ss.1 ss.2) (zip inputShape blockShape)
  = Ok (zip_with range_elems inputShape blockShape).
Proof.
  induction 1 as [|d s ds ss Hs _ IH]; simpl; [done|].
  rewrite IH. unfold py_range0. by destruct (Z.eqb_spec s 0).
Qed.

Lemma ranges_Ok_inv inputShape blockShape ranges :
  length inputShape = length blockShape ->
  mapR (fun ss : Z * Z => py_range0 ss.1 ss.2) (zip inputShape blockShape)
  = Ok ranges ->
  Forall2 (fun _ s => s <> 0) inputShape blockShape.
Proof.
  revert blockShape ranges.
  induction inputShape as [|d ds IH]; intros [|s ss] ranges Hlen H;
    simpl in *; try done.
  destruct (mapR _ (zip ds ss)) as [rs|] eqn:Hrs.
  - constructor; [|eapply IH; [lia|done]].
    intros ->. by unfold py_range0 in H.
  - unfold py_range0 in H. by destruct (s =? 0).
Qed.

Lemma roi_grid_Ok inputShape blockShape :
  Forall2 (fun _ s => s <> 0) inputShape blockShape ->
  roi_grid inputShape blockShape
  = Ok (map (cell inputShape blockShape)
            (product (zip_with range_elems inputShape blockShape))).
Proof. intros H. unfold roi_grid. by rewrite ranges_Ok. Qed.

Lemma cell_sound inputShape blockShape indices p :
  Forall2 good_axis inputShape blockShape ->
  Forall2 (fun i l => i ∈ l) indices (zip_with range_elems inputShape blockShape) ->
  in_roi p (cell inputShape blockShape indices) = true ->
  in_shape inputShape p = true /\ indices = block_start p blockShape.
Proof.
  unfold in_roi, in_shape, cell; simpl.
  intros Hgood; revert indices p.
  induction Hgood as [|d s ds ss (Hs & Hsd & Hd) _ IH]; intros indices p Hidx Hin;
    simpl in Hidx; inversion Hidx as [|i l idx ls Hi Hidx']; subst;
    destruct p as [|x p]; simpl in *; try done.
  apply elem_of_range_elems in Hi as (_ & Hi & Hmul); [|lia..].
  rewrite wrap64_small in Hin by lia.
  apply andb_prop in Hin as [Hb Hin]. apply andb_prop in Hb as [Hl Hu].
  apply Z.leb_le in Hl. apply Z.ltb_lt in Hu.
  destruct (IH idx p Hidx' Hin) as [Hshape ->].
  split.
  - rewrite Hshape. assert ((0 <=? x) = true) as -> by (apply Z.leb_le; lia).
    assert ((x <? d) = true) as -> by (apply Z.ltb_lt; lia). done.
  - unfold block_start; simpl. f_equal.
    assert (x / s = i / s); [|congruence].
    symmetry. apply (Z.div_unique x s (i / s) (x - i)); lia.
Qed.

Lemma cell_complete inputShape blockShape p :
  Forall2 good_axis inputShape blockShape ->
  in_shape inputShape p = true ->
  Forall2 (fun i l => i ∈ l) (block_start p blockShape)
          (zip_with range_elems inputShape blockShape)
  /\ in_roi p (cell inputShape blockShape (block_start p blockShape)) = true.
Proof.
  unfold in_roi, in_shape, cell, block_start; simpl.
  intros Hgood; revert p.
  induction Hgood as [|d s ds ss (Hs & Hsd & Hd) _ IH]; intros p Hin;
    destruct p as [|x p]; simpl in *; try done.
  apply andb_prop in Hin as [Hb Hin]. apply andb_prop in Hb as [Hl Hu].
  apply Z.leb_le in Hl. apply Z.ltb_lt in Hu.
  destruct (IH p Hin) as [Hidx Hbox].
  pose proof (Z.mul_div_le x s Hs) as Hle.
  pose proof (Z.mul_succ_div_gt x s Hs) as Hgt.
  assert (0 <= x / s) by (apply Z.div_pos; lia).
  split.
  - constructor; [|done]. apply elem_of_range_elems; [lia..|].
    split; [done|]. split; [nia|]. by rewrite Z.div_mul by lia.
  - rewrite wrap64_small by nia. rewrite Hbox.
    assert ((x / s * s <=? x) = true) as -> by (apply Z.leb_le; lia).
    assert ((x <? (x / s * s + s) `min` d) = true) as -> by (apply Z.ltb_lt; lia).
    done.
Qed.

Lemma cell_nonempty inputShape blockShape indices :
  Forall2 (fun d s => 0 <= d < 2 ^ 62 /\ s <> 0 /\ (0 < s -> s <= d))
          inputShape blockShape ->
  Forall2 (fun i l => i ∈ l) indices (zip_with range_elems inputShape blockShape) ->
  roi_nonempty (cell inputShape blockShape indices).
Proof.
  unfold roi_nonempty, cell; simpl.
  intros Hax; revert indices.
  induction Hax as [|d s ds ss (Hd & Hs & Hsd) _ IH]; intros indices Hidx;
    simpl in Hidx; inversion Hidx as [|i l idx ls Hi Hidx']; subst; simpl;
    [constructor|].
  apply elem_of_range_elems in Hi as (Hpos & Hi & _); [|lia..].
  constructor; [|by apply IH].
  rewrite wrap64_small by lia. lia.
Qed.

Lemma roi_grid_tiles inputShape blockShape :
  Forall2 good_axis inputShape blockShape ->
  exists rois,
    roi_grid inputShape blockShape = Ok rois
    /\ pairwise_disjoint rois /\ covers inputShape rois.
Proof.
  intros Hgood. eexists. split; [|split].
  - apply roi_grid_Ok. eapply Forall2_impl; [done|].
    intros d s (Hs & _); simpl. lia.
  - intros i j r1 r2 p H1 H2 Hij [Hp1 Hp2].
    rewrite list_lookup_fmap in H1, H2.
    destruct (product _ !! i) as [idx1|] eqn:Hi; [|done].
    destruct (product _ !! j) as [idx2|] eqn:Hj; [|done].
    injection H1 as <-. injection H2 as <-.
    apply cell_sound in Hp1 as [_ E1];
      [|done|by eapply elem_of_product, list_elem_of_lookup_2].
    apply cell_sound in Hp2 as [_ E2];
      [|done|by eapply elem_of_product, list_elem_of_lookup_2].
    apply Hij. eapply NoDup_lookup; [|exact Hi|congruence].
    apply NoDup_product.
    clear -Hgood. induction Hgood as [|d s ds ss (Hs & _) _ IH]; simpl;
      constructor; [apply NoDup_range_elems; lia|done].
  - intros p. split.
    + intros Hp. destruct (cell_complete _ _ _ Hgood Hp) as [Hidx Hin].
      eexists. split; [|exact Hin].
      apply list_elem_of_fmap. eexists. split; [done|]. by apply elem_of_product.
    + intros (r & Hr & Hin). apply list_elem_of_fmap in Hr as (idx & -> & Hidx).
      apply elem_of_product in Hidx. by eapply cell_sound.
Qed.

Lemma in_shape_origin shape :
  Forall (fun d => 0 < d) shape -> in_shape shape (map (fun _ => 0) shape) = true.
Proof.
  unfold in_shape. induction 1 as [|d ds Hd _ IH]; simpl; [done|].
  rewrite IH. by assert ((0 <? d) = true) as -> by (by apply Z.ltb_lt).
Qed.

Lemma product_nil {A} (ls : list (list A)) : [] ∈ ls -> product ls = [].
Proof.
  induction ls as [|l ls IH]; intros Hin; [by apply elem_of_nil in Hin|].
  apply elem_of_cons in Hin as [<-|Hin]; simpl; [done|].
  rewrite IH by done. by induction l.
Qed.

Lemma range_elems_neg stop step : 0 <= stop -> step < 0 -> range_elems stop step = [].
Proof.
  intros Hstop Hstep. unfold range_elems, range_len.
  assert ((0 <? step) = false) as -> by (apply Z.ltb_ge; lia).
  by assert ((stop <? 0) = false) as -> by (apply Z.ltb_ge; lia).
Qed.

(** ** The block shape *)

Section PartitionerFacts.

Variable pow_round : Z -> nat -> result Z.

Lemma roiShape_Ok taggedShape k :
  k <> 0 -> roiShape taggedShape k = Ok (map (block_of taggedShape k) taggedShape).
Proof.
  intros Hk. apply mapR_Ok_intro, Forall2_fmap_r, Forall_Forall2_diag, Forall_forall.
  intros kd _. unfold compose, block_of, py_div.
  destruct (bool_decide _); [|done]. by destruct (Z.eqb_spec k 0).
Qed.

Lemma roiShape_zero taggedShape :
  spaceDims taggedShape <> [] -> roiShape taggedShape 0 = Raise ZeroDivisionError.
Proof.
  intros Hne. apply mapR_Raise.
  - intros kd _. case_bool_decide; [by left|right; eauto].
  - destruct (spaceDims taggedShape) as [|kd l] eqn:Hsp; [done|].
    assert (Hin : kd ∈ spaceDims taggedShape) by (rewrite Hsp; left).
    exists kd. split; [by apply list_elem_of_filter in Hin as [_ ?]|].
    rewrite bool_decide_true; [done|]. simpl. left.
Qed.

Lemma roiShape_inv taggedShape k blockShape :
  roiShape taggedShape k = Ok blockShape ->
  Forall2 (fun d s => s = d \/ (k <> 0 /\ s = d / k)) (shape_of taggedShape) blockShape.
Proof.
  intros H. apply mapR_Ok_inv in H. apply Forall2_fmap_l.
  eapply Forall2_impl; [done|]. intros [key d] s; simpl.
  case_bool_decide; [|intros [= ->]; by left].
  unfold py_div. destruct (Z.eqb_spec k 0); [done|]. intros [= <-]. by right.
Qed.

Lemma space_key_extent taggedShape kd :
  NoDup taggedShape.*1 -> kd ∈ taggedShape ->
  kd.1 ∈ (spaceDims taggedShape).*1 -> kd ∈ spaceDims taggedShape.
Proof.
  intros Hnd Hkd Hkey. apply list_elem_of_fmap in Hkey as (kd' & Hk & Hin).
  assert (Hin' : kd' ∈ taggedShape) by (by apply list_elem_of_filter in Hin as [_ ?]).
  apply list_elem_of_lookup in Hkd as [i Hi].
  apply list_elem_of_lookup in Hin' as [j Hj].
  assert (i = j) as ->.
  { eapply NoDup_lookup; [exact Hnd| |]; rewrite list_lookup_fmap.
    - by rewrite Hi.
    - rewrite Hj. simpl. by rewrite Hk. }
  by assert (kd = kd') as -> by congruence.
Qed.

End PartitionerFacts.

(** ** The partitioner *)

Lemma Forall2_conj {A B} (P Q : A -> B -> Prop) l k :
  Forall2 P l k -> Forall2 Q l k -> Forall2 (fun a b => P a b /\ Q a b) l k.
Proof.
  intros HP; induction HP; inversion 1; subst; constructor; auto.
Qed.

Lemma block_shape_good taggedShape k :
  NoDup taggedShape.*1 ->
  Forall (fun d => 0 < d < 2 ^ 62) (shape_of taggedShape) ->
  1 <= k ->
  Forall (fun kd : string * Z => k <= kd.2) (spaceDims taggedShape) ->
  Forall2 good_axis (shape_of taggedShape) (map (block_of taggedShape k) taggedShape).
Proof.
  intros Hnd Hext Hk Hsp. unfold shape_of in *.
  apply Forall2_fmap, Forall_Forall2_diag, Forall_forall. intros kd Hkd.
  assert (Hd : 0 < kd.2 < 2 ^ 62).
  { rewrite Forall_forall in Hext. apply Hext, list_elem_of_fmap. eauto. }
  unfold good_axis, block_of. case_bool_decide as Hkey; [|lia].
  apply space_key_extent in Hkey; [|done..].
  rewrite Forall_forall in Hsp. specialize (Hsp _ Hkey).
  assert (1 <= kd.2 / k) by (apply Z.div_le_lower_bound; lia).
  assert (kd.2 / k <= kd.2) by (apply Z.div_le_upper_bound; nia).
  lia.
Qed.

(** C1, as the code has it: when every extent is positive, at least one
    of the axes x, y, z has an extent above 1, and the number of blocks
    per axis [k = int(round(numJobs ** (1.0/S)))] is at least 1 (as it
    is for every job count of at least 1) and at most the extent of
    each of those axes, then [_getRoiList] returns a non-empty list of
    pairwise non-overlapping regions whose union is exactly the input
    shape. *)
Theorem getRoiList_partitions pow_round taggedShape numJobs k :
  NoDup taggedShape.*1 ->
  Forall (fun d => 0 < d < 2 ^ 62) (shape_of taggedShape) ->
  spaceDims taggedShape <> [] ->
  pow_round numJobs (length (spaceDims taggedShape)) = Ok k ->
  1 <= k ->
  Forall (fun kd : string * Z => k <= kd.2) (spaceDims taggedShape) ->
  partitions pow_round taggedShape numJobs.
Proof.
  intros Hnd Hext Hne Hpow Hk Hsp.
  destruct (roi_grid_tiles _ _ (block_shape_good _ _ Hnd Hext Hk Hsp))
    as (rois & Hgrid & Hdisj & Hcov).
  exists rois. split.
  - unfold _getRoiList, numJobsPerSpaceDim.
    destruct (length (spaceDims taggedShape)) eqn:Hlen;
      [by destruct (spaceDims taggedShape)|].
    rewrite Hpow. simpl. rewrite roiShape_Ok by lia. exact Hgrid.
  - split; [|done]. intros ->.
    assert (Hpos : Forall (fun d => 0 < d) (shape_of taggedShape))
      by (eapply Forall_impl; [done|]; simpl; lia).
    apply in_shape_origin, Hcov in Hpos as (r & Hr & _).
    by apply elem_of_nil in Hr.
Qed.

Lemma getRoiList_partitions_witness :
  partitions exact_pow_round [("t", 1); ("x", 7); ("y", 5); ("c", 2)] 4.
Proof.
  apply (getRoiList_partitions exact_pow_round
           [("t", 1); ("x", 7); ("y", 5); ("c", 2)] 4 2).
  - by apply (bool_decide_unpack _); vm_compute.
  - repeat constructor; vm_compute; congruence.
  - vm_compute. congruence.
  - vm_compute. reflexivity.
  - lia.
  - vm_compute. repeat constructor; vm_compute; congruence.
Defined.

(** C1 as stated fails: a shape without an x, y or z axis of extent
    above 1 makes [1.0/len(spaceDims)] divide by zero, and a job count
    above the extent of the axis makes the block size, hence the step
    of [range], zero. *)
Lemma getRoiList_partitions_counterexample :
  ~ partitions exact_pow_round [("c", 3)] 1
  /\ ~ partitions exact_pow_round [("x", 2)] 3.
Proof.
  split; intros (rois & H & _); vm_compute in H; discriminate.
Qed.

(** C10: every region that [_getRoiList] returns has [start < stop]
    along every axis. *)
Theorem getRoiList_regions_nonempty pow_round taggedShape numJobs rois :
  shape_wf taggedShape ->
  _getRoiList pow_round taggedShape numJobs = Ok rois ->
  Forall roi_nonempty rois.
Proof.
  intros Hwf H. unfold _getRoiList in H.
  destruct (numJobsPerSpaceDim _ _ _) as [k|]; [simpl in H|done].
  destruct (roiShape taggedShape k) as [blockShape|] eqn:Hblock; [simpl in H|done].
  pose proof (roiShape_inv _ _ _ Hblock) as Hinv.
  assert (Hnz : Forall2 (fun _ s => s <> 0) (shape_of taggedShape) blockShape).
  { unfold roi_grid in H.
    destruct (mapR _ _) as [ranges|] eqn:Hr; [|done].
    eapply ranges_Ok_inv; [by eapply Forall2_length|done]. }
  rewrite roi_grid_Ok in H by done. injection H as <-.
  apply Forall_forall. intros r Hr.
  apply list_elem_of_fmap in Hr as (indices & -> & Hidx).
  apply cell_nonempty; [|by apply elem_of_product].
  assert (Hd : Forall2 (fun d _ => 0 <= d < 2 ^ 62) (shape_of taggedShape) blockShape).
  { apply Forall2_same_length_lookup_2; [by eapply Forall2_length|].
    intros i d s Hd _. unfold shape_wf in Hwf. rewrite Forall_forall in Hwf.
    by eapply Hwf, list_elem_of_lookup_2. }
  eapply Forall2_impl; [exact (Forall2_conj _ _ _ _ Hd (Forall2_conj _ _ _ _ Hnz Hinv))|].
  intros d s (Hdr & Hs & Hcase); simpl in *. split; [done|]. split; [done|].
  intros Hpos. destruct Hcase as [->|[Hk ->]]; [lia|].
  destruct (Z.lt_trichotomy k 0) as [Hneg|[->|Hkpos]]; [|done|].
  - pose proof (Z.div_mod d k Hk). pose proof (Z.mod_neg_bound d k Hneg). nia.
  - apply Z.div_le_upper_bound; nia.
Qed.

Lemma getRoiList_regions_nonempty_witness :
  Forall roi_nonempty
    [([0; 0], [2; 5]); ([2; 0], [4; 5]); ([4; 0], [5; 5])].
Proof.
  apply (getRoiList_regions_nonempty exact_pow_round [("y", 5); ("c", 5)] 2).
  - repeat constructor; vm_compute; congruence.
  - vm_compute. reflexivity.
Defined.

(** C8 as the code has it: there is no fallback.  Without an axis x, y
    or z of extent above 1 the partitioner raises [ZeroDivisionError];
    with a job count that is not positive (so that the number of blocks
    per axis is not positive either) it raises or returns no region at
    all. *)
Theorem getRoiList_no_fallback pow_round taggedShape numJobs :
  (forall k, numJobs <= 0 ->
             pow_round numJobs (length (spaceDims taggedShape)) = Ok k -> k <= 0) ->
  numJobs <= 0 \/ spaceDims taggedShape = [] ->
  (spaceDims taggedShape = [] ->
   _getRoiList pow_round taggedShape numJobs = Raise ZeroDivisionError)
  /\ (is_Raise (_getRoiList pow_round taggedShape numJobs)
      \/ _getRoiList pow_round taggedShape numJobs = Ok []).
Proof.
  intros Hpow Hcase.
  assert (Hnil : spaceDims taggedShape = [] ->
                 _getRoiList pow_round taggedShape numJobs = Raise ZeroDivisionError).
  { intros E. unfold _getRoiList, numJobsPerSpaceDim. by rewrite E. }
  split; [done|].
  destruct (spaceDims taggedShape) as [|kd0 l0] eqn:Hsp; [left; by rewrite Hnil|].
  destruct Hcase as [HJ|?]; [|done].
  unfold _getRoiList, numJobsPerSpaceDim. rewrite Hsp. simpl length.
  specialize (Hpow (match pow_round numJobs (S (length l0)) with Ok k => k | _ => 0 end) HJ).
  simpl length in Hpow.
  destruct (pow_round numJobs (S (length l0))) as [k|e]; [|by left].
  specialize (Hpow eq_refl). simpl.
  destruct (Z.eq_dec k 0) as [->|Hk].
  { left. rewrite roiShape_zero; [done|]. by rewrite Hsp. }
  rewrite roiShape_Ok by done. simpl.
  destruct (roi_grid _ _) as [rois|e] eqn:Hgrid; [right|by left].
  assert (Hnz : Forall2 (fun _ s => s <> 0) (shape_of taggedShape)
                        (map (block_of taggedShape k) taggedShape)).
  { unfold roi_grid in Hgrid. destruct (mapR _ _) as [ranges|] eqn:Hr; [|done].
    eapply ranges_Ok_inv; [|done]. unfold shape_of. by rewrite !length_fmap. }
  rewrite roi_grid_Ok in Hgrid by done. injection Hgrid as <-.
  rewrite product_nil; [done|].
  unfold shape_of. rewrite zip_with_fmap_l, zip_with_fmap_r, zip_with_diag.
  assert (Hin : kd0 ∈ spaceDims taggedShape) by (rewrite Hsp; left).
  apply list_elem_of_fmap. exists kd0.
  apply list_elem_of_filter in Hin as [Hkd Hin]. split; [|done].
  apply andb_prop in Hkd as [_ Hd%Z.ltb_lt].
  symmetry. apply range_elems_neg; [lia|].
  unfold block_of. rewrite bool_decide_true.
  - pose proof (Z.div_mod kd0.2 k Hk).
    pose proof (Z.mod_neg_bound kd0.2 k ltac:(lia)). nia.
  - rewrite Hsp. simpl. left.
Qed.

Lemma getRoiList_no_fallback_witness :
  (spaceDims [("x", 5)] = [] ->
   _getRoiList exact_pow_round [("x", 5)] (-1) = Raise ZeroDivisionError)
  /\ (is_Raise (_getRoiList exact_pow_round [("x", 5)] (-1))
      \/ _getRoiList exact_pow_round [("x", 5)] (-1) = Ok []).
Proof.
  apply (getRoiList_no_fallback exact_pow_round [("x", 5)] (-1)).
  - intros k _ H. vm_compute in H. injection H as <-. lia.
  - left. lia.
Defined.

(** C8 as stated fails: job count 0 divides by zero, a negative job
    count on one axis gives an empty list, and a shape with nothing to
    split divides by zero as well. *)
Lemma getRoiList_fallback_counterexample :
  ~ falls_back exact_pow_round scenario_A_shape 0
  /\ ~ falls_back exact_pow_round [("x", 5)] (-1)
  /\ ~ falls_back exact_pow_round [("c", 3)] 8.
Proof.
  unfold falls_back.
  split; [|split]; intros H.
  - assert (H0 : _getRoiList exact_pow_round scenario_A_shape 0 = Ok _)
      by (apply H; left; lia).
    vm_compute in H0. discriminate.
  - assert (H0 : _getRoiList exact_pow_round [("x", 5)] (-1) = Ok _)
      by (apply H; left; lia).
    vm_compute in H0. discriminate.
  - assert (H0 : _getRoiList exact_pow_round [("c", 3)] 8 = Ok _)
      by (apply H; right; reflexivity).
    vm_compute in H0. discriminate.
Qed.

(** C9: scenario A.  With [round(8 ** (1.0/3)) = 2] the shape
    [{x:100, y:100, z:30}] is cut into exactly 8 regions, each of shape
    [(50, 50, 15)], whose union is the whole volume. *)
Theorem getRoiList_scenario_A pow_round :
  pow_round 8 3%nat = Ok 2 ->
  exists rois,
    _getRoiList pow_round scenario_A_shape 8 = Ok rois
    /\ length rois = 8%nat
    /\ Forall (fun r : roi => np_subtract r.2 r.1 = [50; 50; 15]) rois
    /\ covers (shape_of scenario_A_shape) rois.
Proof.
  intros Hpow.
  destruct (roi_grid_tiles [100; 100; 30] [50; 50; 15]) as (rois & Hg & _ & Hcov).
  { repeat constructor; lia. }
  exists rois. split; [|split; [|split]]; [| | |exact Hcov].
  - unfold _getRoiList, numJobsPerSpaceDim.
    change (length (spaceDims scenario_A_shape)) with 3%nat.
    cbv iota beta. rewrite Hpow. exact Hg.
  - vm_compute in Hg. by injection Hg as <-.
  - vm_compute in Hg. injection Hg as <-. by repeat constructor.
Qed.

Lemma getRoiList_scenario_A_witness :
  exists rois,
    _getRoiList exact_pow_round scenario_A_shape 8 = Ok rois
    /\ length rois = 8%nat
    /\ Forall (fun r : roi => np_subtract r.2 r.1 = [50; 50; 15]) rois
    /\ covers (shape_of scenario_A_shape) rois.
Proof.
  apply (getRoiList_scenario_A exact_pow_round). vm_compute. reflexivity.
Defined.

(** ** Task preparation *)

Lemma exact_pow_round_pos J n k :
  1 <= J -> exact_pow_round J n = Ok k -> 1 <= k.
Proof.
  intros HJ. unfold exact_pow_round.
  assert ((J <? 0) = false) as -> by (apply Z.ltb_ge; lia).
  intros [= <-].
  replace J with (Z.succ (J - 1)) at 2 by lia.
  rewrite seqZ_cons by lia. rewrite filter_cons_True; [simpl; lia|].
  assert (0 < 2 ^ Z.of_nat n) by (apply Z.pow_pos_nonneg; lia).
  replace (2 * 1 - 1) with 1 by lia. rewrite Z.pow_1_l by lia. nia.
Qed.

Lemma product_not_nil {A} (ls : list (list A)) :
  Forall (fun l => l <> []) ls -> product ls <> [].
Proof.
  induction 1 as [|l ls Hl _ IH]; simpl; [done|].
  destruct l as [|x l]; [done|]. simpl.
  destruct (product ls); [done|]. done.
Qed.

Lemma range_elems_not_nil stop step :
  (0 < step /\ 0 < stop) \/ (step < 0 /\ stop < 0) -> range_elems stop step <> [].
Proof.
  intros Hsign. unfold range_elems, range_len.
  assert (Hlen : exists m, Z.to_nat
            (if 0 <? step then if 0 <? stop then (stop - 1) / step + 1 else 0
             else if stop <? 0 then (- stop - 1) / - step + 1 else 0) = S m);
    [|destruct Hlen as [m ->]; done].
  destruct Hsign as [[Hs Hd]|[Hs Hd]].
  - assert ((0 <? step) = true) as -> by (by apply Z.ltb_lt).
    assert ((0 <? stop) = true) as -> by (by apply Z.ltb_lt).
    assert (0 <= (stop - 1) / step) by (apply Z.div_pos; lia).
    exists (Z.to_nat ((stop - 1) / step)). lia.
  - assert ((0 <? step) = false) as -> by (apply Z.ltb_ge; lia).
    assert ((stop <? 0) = true) as -> by (by apply Z.ltb_lt).
    assert (0 <= (- stop - 1) / - step) by (apply Z.div_pos; lia).
    exists (Z.to_nat ((- stop - 1) / - step)). lia.
Qed.

(** With at least one block per axis the partitioner, when it
    returns, returns at least one region. *)
Lemma getRoiList_not_nil pow_round taggedShape numJobs rois :
  (forall n k, pow_round numJobs n = Ok k -> 1 <= k) ->
  _getRoiList pow_round taggedShape numJobs = Ok rois ->
  rois <> [].
Proof.
  intros Hpow H. unfold _getRoiList in H.
  destruct (numJobsPerSpaceDim _ _ _) as [k|] eqn:Hk; [simpl in H|done].
  assert (1 <= k).
  { unfold numJobsPerSpaceDim in Hk. destruct (length _); [done|]. eauto. }
  rewrite roiShape_Ok in H by lia. simpl in H.
  assert (Hnz : Forall2 (fun _ s => s <> 0) (shape_of taggedShape)
                        (map (block_of taggedShape k) taggedShape)).
  { unfold roi_grid in H. destruct (mapR _ _) as [ranges|] eqn:Hr; [|done].
    eapply ranges_Ok_inv; [|done]. unfold shape_of. by rewrite !length_fmap. }
  rewrite roi_grid_Ok in H by done. injection H as <-.
  intros Hnil. apply fmap_nil_inv in Hnil. revert Hnil. apply product_not_nil.
  unfold shape_of in *. rewrite zip_with_fmap_l, zip_with_fmap_r, zip_with_diag.
  apply Forall2_fmap in Hnz. rewrite Forall_fmap.
  apply Forall_forall. intros kd Hkd.
  assert (Hs : block_of taggedShape k kd <> 0).
  { apply Forall2_same_length_lookup in Hnz as [_ Hnz].
    apply list_elem_of_lookup in Hkd as [i Hi]. by eapply Hnz. }
  simpl. apply range_elems_not_nil.
  unfold block_of in *. destruct (bool_decide _); [|lia].
  destruct (Z.lt_trichotomy kd.2 0) as [Hneg|[Hz|Hpos]].
  - right. split; [|done]. apply Z.div_lt_upper_bound; lia.
  - rewrite Hz in Hs. by rewrite Z.div_0_l in Hs by lia.
  - left. split; [|done]. assert (0 <= kd.2 / k) by (apply Z.div_pos; lia). lia.
Qed.

Section Preparation.

Context (ext : externals) (inputs : cluster_inputs) (env : environment).

Lemma prepare_task_without_args taskInfos roiIndex r w :
  py_find (CommandFormat inputs) "{args}" = -1 ->
  prepare_task ext inputs taskInfos roiIndex r w = (Raise AssertionError, w).
Proof. intros H. unfold prepare_task. by rewrite H. Qed.

Lemma prepareTaskInfos_without_args w :
  py_find (CommandFormat inputs) "{args}" = -1 ->
  _prepareTaskInfos ext inputs w =
  match _getRoiList (ext_pow_round ext) (meta_shape (Input_meta inputs))
                    (NumJobs inputs) with
  | Raise e => (Raise e, w)
  | Ok [] => (Ok ∅, w)
  | Ok (_ :: _) => (Raise AssertionError, w)
  end.
Proof.
  intros H. unfold _prepareTaskInfos, mbind, M_bind, lift.
  destruct (_getRoiList _ _ _) as [[|r rois]|e]; [done| |done].
  simpl. unfold mbind, M_bind. by rewrite prepare_task_without_args.
Qed.

End Preparation.

(** C3, as the code has it: a command template without ["{args}"] is
    rejected in [_prepareTaskInfos] for every job count of at least 1
    (the rounded root of such a count being at least 1): [execute]
    raises, and the world it leaves is the one it found - no command
    was handed to [subprocess.call] and no file was removed.  The
    assert sits in the loop over the regions, so the job count
    matters. *)
Theorem execute_rejects_template_without_args ext inputs env fuel w :
  py_find (CommandFormat inputs) "{args}" = -1 ->
  1 <= NumJobs inputs ->
  (forall J n k, 1 <= J -> ext_pow_round ext J n = Ok k -> 1 <= k) ->
  exists e, execute ext inputs env fuel w = Some (Raise e, w).
Proof.
  intros Hfmt HJ Hpow. unfold execute.
  rewrite prepareTaskInfos_without_args by done.
  destruct (_getRoiList _ _ _) as [[|r rois]|e] eqn:Hrois; [|by eexists..].
  exfalso. eapply getRoiList_not_nil; [|exact Hrois|done].
  intros n k. by apply Hpow.
Qed.

Lemma execute_rejects_template_without_args_witness :
  exists e,
    execute sample_ext (sample_inputs "qsub -N {task_name} run" 2 600) idle_env 5
            {| files := {[ "/scratch/TASK_0 status ((0, 0), (2, 2)).txt" := TextFile "Yay!" ]};
               spawned := [] |}
    = Some (Raise e,
            {| files := {[ "/scratch/TASK_0 status ((0, 0), (2, 2)).txt" := TextFile "Yay!" ]};
               spawned := [] |}).
Proof.
  apply (execute_rejects_template_without_args sample_ext
           (sample_inputs "qsub -N {task_name} run" 2 600)).
  - vm_compute. reflexivity.
  - simpl. lia.
  - intros J n k. apply exact_pow_round_pos.
Defined.

(** C3 as stated fails: with a job count of -1 the partitioner returns
    no region, the assert in the loop over the regions is never
    reached, and [execute] returns [True] for a template without
    ["{args}"]. *)
Lemma template_without_args_counterexample :
  py_find (CommandFormat (sample_inputs "run" (-1) 600)) "{args}" = -1
  /\ _getRoiList exact_pow_round (meta_shape sample_meta) (-1) = Ok []
  /\ execute sample_ext (sample_inputs "run" (-1) 600) idle_env 5 empty_world
     = Some (Ok true, empty_world).
Proof. repeat split; vm_compute; reflexivity. Qed.

(** ** Copying finished results *)

Section Copy.

Context (ext : externals) (inputs : cluster_inputs).

Lemma check_result_node_result f f' r :
  f !! "node_result" = f' !! "node_result" ->
  check_result inputs f r = check_result inputs f' r.
Proof. intros H. unfold check_result. by rewrite H. Qed.

Lemma dest_step_refl fs : dest_step inputs fs fs.
Proof. by left. Qed.

Lemma dest_step_trans fs1 fs2 fs3 :
  dest_step inputs fs1 fs2 -> dest_step inputs fs2 fs3 -> dest_step inputs fs1 fs3.
Proof.
  intros [->|(h2 & -> & H2)] [->|(h3 & -> & H3)];
    [by left|right; eauto|right; eauto|].
  right. exists h3. rewrite insert_insert_eq. split; [done|].
  rewrite lookup_insert_eq in H3.
  destruct (fs1 !! OutputFilePath inputs) as [[]|]; try done; congruence.
Qed.

Lemma open_destination_step w res w' :
  open_destination inputs w = (res, w') -> dest_step inputs (files w) (files w').
Proof.
  unfold open_destination, dest_step.
  destruct (files w !! OutputFilePath inputs) as [[| h | |]|] eqn:Hout;
    try (intros [= <- <-]; by left).
  - destruct (h !! "cluster_result") eqn:Hc; intros [= <- <-]; [by left|].
    right. eexists. split; [done|]. by rewrite lookup_insert_ne.
  - intros [= <- <-]. right. eexists. split; [done|].
    by rewrite lookup_singleton_ne.
Qed.

Lemma write_result_step r src w res w' :
  write_result ext inputs r src w = (res, w') -> dest_step inputs (files w) (files w').
Proof.
  unfold write_result, dest_step.
  destruct (files w !! OutputFilePath inputs) as [[| h | |]|] eqn:Hout;
    try (intros [= <- <-]; by left).
  destruct (h !! "cluster_result") eqn:Hc; [|intros [= <- <-]; by left].
  destruct (h5_setitem _ _ _ _); intros [= <- <-]; [|by left].
  right. eexists. split; [done|]. by rewrite lookup_insert_ne.
Qed.

Lemma doomed_dest_step r taskInfo fs fs' :
  doomed inputs r taskInfo fs -> dest_step inputs fs fs' ->
  doomed inputs r taskInfo fs'.
Proof.
  intros [Hst Hout] [->|(h' & -> & Hh')]; [done|]. split.
  - rewrite lookup_insert. case_decide; [eauto|done].
  - rewrite lookup_insert. case_decide as Heq; [|done]. simpl.
    rewrite <- Heq in Hout. unfold fails_validation in *.
    destruct (fs !! OutputFilePath inputs) as [[| h | |]|]; try done.
    + by rewrite (check_result_node_result h' h).
    + unfold check_result. by rewrite Hh'.
Qed.

(** The world after [copy_task] differs from the one before by
    updates of the consolidated output only. *)
Lemma copy_task_step r taskInfo destinationOpen w res w' :
  copy_task ext inputs r taskInfo destinationOpen w = (res, w') ->
  dest_step inputs (files w) (files w').
Proof.
  unfold copy_task, mbind, M_bind, os_path_exists, h5_open_read, lift, raise.
  destruct (bool_decide (is_Some (files w !! statusFilePath taskInfo)));
    simpl; [|intros [= <- <-]; by left].
  destruct (bool_decide (is_Some (files w !! outputFilePath taskInfo)));
    simpl; [|intros [= <- <-]; by left].
  destruct (files w !! outputFilePath taskInfo) as [[| f | |]|];
    try (intros [= <- <-]; by left).
  destruct (check_result inputs f r) as [d|]; [|intros [= <- <-]; by left].
  destruct (if destinationOpen then _ else _) as [[[]|] w1] eqn:Hopen;
    [|intros [= <- <-]].
  - assert (dest_step inputs (files w) (files w1)).
    { destruct destinationOpen; [injection Hopen as <-; by left|].
      by eapply open_destination_step. }
    destruct (write_result _ _ _ _ w1) as [[[]|] w2] eqn:Hwrite;
      intros [= <- <-]; eapply dest_step_trans; try done;
      by eapply write_result_step.
  - destruct destinationOpen; [done|]. by eapply open_destination_step.
Qed.

Lemma copy_task_doomed r taskInfo destinationOpen w :
  doomed inputs r taskInfo (files w) ->
  exists e, copy_task ext inputs r taskInfo destinationOpen w = (Raise e, w).
Proof.
  intros [Hst Hout].
  unfold copy_task, mbind, M_bind, os_path_exists, h5_open_read, lift, raise.
  rewrite bool_decide_true by done. simpl.
  destruct (files w !! outputFilePath taskInfo) as [[| f | |]|] eqn:Hf.
  - rewrite bool_decide_true by eauto. simpl. rewrite Hf. eauto.
  - rewrite bool_decide_true by eauto. simpl. rewrite Hf.
    unfold fails_validation in Hout.
    destruct (check_result inputs f r); [done|eauto].
  - rewrite bool_decide_true by eauto. simpl. rewrite Hf. eauto.
  - rewrite bool_decide_true by eauto. simpl. rewrite Hf. eauto.
  - rewrite bool_decide_false by (by intros [? ?]). simpl. eauto.
Qed.

Lemma copy_loop_doomed items finished_rois destinationOpen w r taskInfo :
  (r, taskInfo) ∈ items ->
  doomed inputs r taskInfo (files w) ->
  exists e w', copy_loop ext inputs items finished_rois destinationOpen w
               = (Raise e, w').
Proof.
  revert finished_rois destinationOpen w.
  induction items as [|[r' ti'] items IH]; intros fin b w Hin Hdoom.
  { by apply elem_of_nil in Hin. }
  simpl. unfold mbind, M_bind.
  apply elem_of_cons in Hin as [[= <- <-]|Hin].
  { destruct (copy_task_doomed r taskInfo b w Hdoom) as [e ->]. eauto. }
  destruct (copy_task ext inputs r' ti' b w) as [[copied|e] w1] eqn:Hc; [|eauto].
  assert (doomed inputs r taskInfo (files w1))
    by (eapply doomed_dest_step; [done|by eapply copy_task_step]).
  destruct copied; by apply IH.
Qed.

Lemma elem_of_dict_items taskInfos r taskInfo :
  dict_order_ok ext ->
  (r, taskInfo) ∈ dict_items ext taskInfos <-> taskInfos !! r = Some taskInfo.
Proof. intros Hperm. rewrite (Hperm taskInfos). apply elem_of_map_to_list. Qed.

Lemma copyFinishedResults_doomed taskInfos w r taskInfo :
  dict_order_ok ext ->
  taskInfos !! r = Some taskInfo ->
  doomed inputs r taskInfo (files w) ->
  exists e w', _copyFinishedResults ext inputs taskInfos w = (Raise e, w').
Proof.
  intros Hperm Hr Hdoom. eapply copy_loop_doomed; [|done].
  by apply elem_of_dict_items.
Qed.

(** A mismatch of element type, of axis tags, or of a shape of the
    right rank fails the checks. *)
Lemma mismatch_fails_validation f r d :
  f !! "node_result" = Some d ->
  ds_dtype d <> meta_dtype (Input_meta inputs)
  \/ ds_attrs d !! "axistags" <> Some (meta_axistags (Input_meta inputs))
  \/ (length (ds_shape d) = length (np_subtract r.2 r.1)
      /\ ds_shape d <> np_subtract r.2 r.1) ->
  fails_validation inputs f r.
Proof.
  intros Hd Hcase. unfold fails_validation, check_result. rewrite Hd.
  destruct (np_all_eq _ _) eqn:Hshape; simpl; [|done].
  case_bool_decide as Hdt; simpl; [|done].
  destruct (ds_attrs d !! "axistags") as [tags|] eqn:Htags; [|done].
  case_bool_decide as Ht; simpl; [|done].
  destruct Hcase as [?|[?|[Hlen Hne]]]; [done|congruence|].
  unfold np_all_eq in Hshape. rewrite bool_decide_true in Hshape by done.
  by apply bool_decide_eq_true in Hshape.
Qed.


End Copy.

(** ** The polling loop *)

Section Polling.

Context (ext : externals) (inputs : cluster_inputs) (env : environment).

Lemma poll_pass_raises taskInfos success w e w' :
  _copyFinishedResults ext inputs taskInfos w = (Raise e, w') ->
  poll_pass ext inputs taskInfos success w = (Raise e, w').
Proof. intros H. unfold poll_pass, mbind, M_bind. by rewrite H. Qed.

Lemma execute_loop_raises fuel n totalTimer taskInfos success w elapsed e w' :
  size taskInfos <> 0%nat ->
  Timer_seconds totalTimer (time_check env n) = Ok elapsed ->
  elapsed < TaskTimeoutSeconds inputs ->
  _copyFinishedResults ext inputs taskInfos (set_files (workers env n) w)
  = (Raise e, w') ->
  execute_loop ext inputs env (S fuel) n totalTimer taskInfos success w
  = Some (Raise e, w').
Proof.
  intros Hsize Htime Hlt Hcopy. simpl.
  rewrite bool_decide_false by done. rewrite Htime.
  assert ((TaskTimeoutSeconds inputs <=? elapsed) = false) as ->
    by (apply Z.leb_gt; lia).
  by rewrite (poll_pass_raises _ _ _ _ _ Hcopy).
Qed.

Lemma doomed_aborts fuel n totalTimer taskInfos success w r taskInfo elapsed :
  dict_order_ok ext ->
  taskInfos !! r = Some taskInfo ->
  Timer_seconds totalTimer (time_check env n) = Ok elapsed ->
  elapsed < TaskTimeoutSeconds inputs ->
  doomed inputs r taskInfo (workers env n (files w)) ->
  exists e w',
    poll_pass ext inputs taskInfos success (set_files (workers env n) w)
    = (Raise e, w')
    /\ execute_loop ext inputs env (S fuel) n totalTimer taskInfos success w
       = Some (Raise e, w')
    /\ main_exit_code (Raise e) = 1.
Proof.
  intros Hperm Hr Htime Hlt Hdoom.
  destruct (copyFinishedResults_doomed ext inputs taskInfos
              (set_files (workers env n) w) r taskInfo Hperm Hr Hdoom)
    as (e & w' & Hcopy).
  exists e, w'. split; [by apply poll_pass_raises|]. split; [|done].
  eapply execute_loop_raises; [|done..].
  intros Hsize. apply map_size_empty_iff in Hsize. by rewrite Hsize in Hr.
Qed.

Lemma Timer_seconds_lt_day totalTimer now elapsed :
  Timer_seconds totalTimer now = Ok elapsed -> 0 <= elapsed < 86400.
Proof.
  unfold Timer_seconds.
  destruct (startTime totalTimer); [|done].
  destruct (stopTime totalTimer); intros [= <-]; simpl;
    apply Z.mod_pos_bound; lia.
Qed.

Lemma copy_loop_no_markers items finished_rois destinationOpen w :
  (forall r taskInfo, (r, taskInfo) ∈ items ->
                      files w !! statusFilePath taskInfo = None) ->
  copy_loop ext inputs items finished_rois destinationOpen w = (Ok finished_rois, w).
Proof.
  induction items as [|[r ti] items IH]; intros Hno; [done|].
  assert (Hskip : copy_task ext inputs r ti destinationOpen w = (Ok false, w)).
  { unfold copy_task, os_path_exists. unfold mbind, M_bind.
    rewrite (Hno r ti) by left.
    by rewrite bool_decide_false by (by intros [? ?]). }
  simpl. unfold mbind, M_bind. rewrite Hskip.
  apply IH. intros r' ti' Hin. apply (Hno r'). by right.
Qed.

Lemma poll_pass_no_markers taskInfos success w :
  dict_order_ok ext ->
  no_markers taskInfos (files w) ->
  poll_pass ext inputs taskInfos success w = (Ok (taskInfos, success), w).
Proof.
  intros Hperm Hno. unfold poll_pass, _copyFinishedResults, mbind, M_bind.
  rewrite copy_loop_no_markers; [done|].
  intros r ti Hin. apply (Hno r). by apply (elem_of_dict_items ext).
Qed.

End Polling.

(** C5: a task whose status file is there while its output file is not
    makes [_copyFinishedResults] raise instead of skipping the task;
    the exception leaves the polling loop of [execute], and the
    program ends with exit code 1. *)
Theorem missing_output_aborts ext inputs env fuel n totalTimer taskInfos success w
    r taskInfo elapsed :
  dict_order_ok ext ->
  taskInfos !! r = Some taskInfo ->
  Timer_seconds totalTimer (time_check env n) = Ok elapsed ->
  elapsed < TaskTimeoutSeconds inputs ->
  is_Some (workers env n (files w) !! statusFilePath taskInfo) ->
  workers env n (files w) !! outputFilePath taskInfo = None ->
  exists e w',
    _copyFinishedResults ext inputs taskInfos (set_files (workers env n) w)
    = (Raise e, w')
    /\ execute_loop ext inputs env (S fuel) n totalTimer taskInfos success w
       = Some (Raise e, w')
    /\ main_exit_code (Raise e) = 1.
Proof.
  intros Hperm Hr Htime Hlt Hst Hout.
  assert (Hdoom : doomed inputs r taskInfo (workers env n (files w)))
    by (split; [done|by rewrite Hout]).
  destruct (copyFinishedResults_doomed ext inputs taskInfos
              (set_files (workers env n) w) r taskInfo Hperm Hr Hdoom)
    as (e & w' & Hcopy).
  exists e, w'. split; [done|]. split; [|done].
  eapply execute_loop_raises; [|done..].
  intros Hsize. apply map_size_empty_iff in Hsize. by rewrite Hsize in Hr.
Qed.


(** C7, as the code has it: a marked task whose result fails the
    checks is not marked as failed and dropped.  The pass raises, the
    exception leaves the polling loop of [execute] - no further round
    is run - and [_checkForFailures] never reports a task. *)
Theorem invalid_result_aborts ext inputs env fuel n totalTimer taskInfos success w
    r taskInfo elapsed f :
  dict_order_ok ext ->
  taskInfos !! r = Some taskInfo ->
  Timer_seconds totalTimer (time_check env n) = Ok elapsed ->
  elapsed < TaskTimeoutSeconds inputs ->
  is_Some (workers env n (files w) !! statusFilePath taskInfo) ->
  workers env n (files w) !! outputFilePath taskInfo = Some (H5File f) ->
  fails_validation inputs f r ->
  (exists e w',
     poll_pass ext inputs taskInfos success (set_files (workers env n) w)
     = (Raise e, w')
     /\ execute_loop ext inputs env (S fuel) n totalTimer taskInfos success w
        = Some (Raise e, w'))
  /\ forall taskInfos', _checkForFailures taskInfos' = [].
Proof.
  intros Hperm Hr Htime Hlt Hst Hout Hfail. split; [|done].
  assert (Hdoom : doomed inputs r taskInfo (workers env n (files w)))
    by (split; [done|by rewrite Hout]).
  destruct (doomed_aborts ext inputs env fuel n totalTimer taskInfos success w
              r taskInfo elapsed Hperm Hr Htime Hlt Hdoom)
    as (e & w' & Hpass & Hloop & _).
  eauto.
Qed.

Lemma missing_output_aborts_witness :
  exists e w',
    _copyFinishedResults sample_ext (sample_inputs "run {args}" 2 600) sample_tasks
      (set_files (workers marker_only_env 0) empty_world) = (Raise e, w')
    /\ execute_loop sample_ext (sample_inputs "run {args}" 2 600) marker_only_env 1 0
         (Timer_enter 0 Timer_init) sample_tasks true empty_world
       = Some (Raise e, w')
    /\ main_exit_code (Raise e) = 1.
Proof.
  apply (missing_output_aborts sample_ext (sample_inputs "run {args}" 2 600)
           marker_only_env 0 0 (Timer_enter 0 Timer_init) sample_tasks true
           empty_world sample_roi sample_task 0).
  - intros m. reflexivity.
  - reflexivity.
  - reflexivity.
  - simpl. lia.
  - vm_compute. eauto.
  - vm_compute. reflexivity.
Defined.



Lemma invalid_result_aborts_witness :
  (exists e w',
     poll_pass sample_ext (sample_inputs "run {args}" 2 600) sample_tasks true
       (set_files (workers (result_env "uint8") 0) empty_world) = (Raise e, w')
     /\ execute_loop sample_ext (sample_inputs "run {args}" 2 600) (result_env "uint8")
          1 0 (Timer_enter 0 Timer_init) sample_tasks true empty_world
        = Some (Raise e, w'))
  /\ forall taskInfos', _checkForFailures taskInfos' = [].
Proof.
  apply (invalid_result_aborts sample_ext (sample_inputs "run {args}" 2 600)
           (result_env "uint8") 0 0 (Timer_enter 0 Timer_init) sample_tasks true
           empty_world sample_roi sample_task 0
           {[ "node_result" := sample_result "uint8" ]}).
  - intros m. reflexivity.
  - reflexivity.
  - reflexivity.
  - simpl. lia.
  - vm_compute. eauto.
  - vm_compute. reflexivity.
  - vm_compute. exact I.
Defined.

(** C7 as stated fails: with one task whose result has the wrong
    element type the round does not go on without the task; it raises
    [AssertionError]. *)
Lemma drops_failed_task_counterexample :
  ~ drops_failed_task sample_ext (sample_inputs "run {args}" 2 600) sample_tasks true
      (set_files (workers (result_env "uint8") 0) empty_world) sample_roi.
Proof.
  intros (taskInfos' & w' & H & _). vm_compute in H. discriminate.
Qed.

(** The same round with a result of the expected type is merged. *)
Example valid_result_copied :
  exists w',
    poll_pass sample_ext (sample_inputs "run {args}" 2 600) sample_tasks true
      (set_files (workers (result_env "float32") 0) empty_world) = (Ok (∅, true), w').
Proof. eexists. vm_compute. reflexivity. Qed.

(** ** The timeout *)

Section Timeout.

Context (ext : externals) (inputs : cluster_inputs) (env : environment).

Lemma execute_loop_polls fuel n totalTimer taskInfos success w elapsed :
  size taskInfos <> 0%nat ->
  Timer_seconds totalTimer (time_check env n) = Ok elapsed ->
  elapsed < TaskTimeoutSeconds inputs ->
  execute_loop ext inputs env fuel n totalTimer taskInfos success w =
  match fuel with
  | O => None
  | S fuel' =>
      match poll_pass ext inputs taskInfos success (set_files (workers env n) w) with
      | (Raise e, w') => Some (Raise e, w')
      | (Ok (taskInfos', success'), w') =>
          execute_loop ext inputs env fuel' (S n) totalTimer taskInfos' success' w'
      end
  end.
Proof.
  intros Hsize Htime Hlt.
  destruct fuel; simpl; rewrite bool_decide_false by done; rewrite Htime;
    by (assert ((TaskTimeoutSeconds inputs <=? elapsed) = false) as ->
          by (apply Z.leb_gt; lia)).
Qed.

Lemma execute_loop_times_out fuel n totalTimer taskInfos success w elapsed :
  size taskInfos <> 0%nat ->
  Timer_seconds totalTimer (time_check env n) = Ok elapsed ->
  TaskTimeoutSeconds inputs <= elapsed ->
  execute_loop ext inputs env fuel n totalTimer taskInfos success w
  = Some (Ok (false, taskInfos), w).
Proof.
  intros Hsize Htime Hle.
  destruct fuel; simpl; rewrite bool_decide_false by done; rewrite Htime;
    by (assert ((TaskTimeoutSeconds inputs <=? elapsed) = true) as ->
          by (apply Z.leb_le; lia)).
Qed.

Lemma Timer_seconds_running start now :
  Timer_seconds (Timer_enter start Timer_init) now
  = Ok (((now - start) / 1000000) mod 86400).
Proof. reflexivity. Qed.

End Timeout.

(** C2 fails on the code for a timeout of one day or more:
    [Timer.seconds] reads the [seconds] attribute of the elapsed
    [timedelta], which is always below 86400, so the check
    [totalTimer.seconds() >= timeOut] never holds.  As long as no task
    writes its marker the loop is still polling after any number of
    rounds, whatever the clock says. *)
Theorem day_long_timeout_never_fires ext inputs env taskInfos success fuel n w :
  dict_order_ok ext ->
  86400 <= TaskTimeoutSeconds inputs ->
  size taskInfos <> 0%nat ->
  (forall m fs, no_markers taskInfos fs -> no_markers taskInfos (workers env m fs)) ->
  no_markers taskInfos (files w) ->
  execute_loop ext inputs env fuel n (Timer_enter (time_start env) Timer_init)
               taskInfos success w = None.
Proof.
  intros Hperm Hday Hsize Hworkers. revert n w.
  induction fuel as [|fuel IH]; intros n w Hno;
    pose proof (Timer_seconds_running (time_start env) (time_check env n)) as Htime;
    pose proof (Timer_seconds_lt_day _ _ _ Htime);
    rewrite (execute_loop_polls _ _ _ _ _ _ _ _ _ _ Hsize Htime) by lia; [done|].
  rewrite poll_pass_no_markers; [|done|by apply Hworkers].
  apply IH. by apply Hworkers.
Qed.

Lemma day_long_timeout_never_fires_witness :
  execute_loop sample_ext (sample_inputs "run {args}" 2 86400) hourly_env 30 0
               (Timer_enter (time_start hourly_env) Timer_init)
               sample_tasks true empty_world = None.
Proof.
  apply (day_long_timeout_never_fires sample_ext (sample_inputs "run {args}" 2 86400)
           hourly_env sample_tasks true 30 0 empty_world).
  - intros m. reflexivity.
  - simpl. lia.
  - vm_compute. congruence.
  - intros m fs H. exact H.
  - intros r taskInfo _. reflexivity.
Defined.

(** A whole run with a timeout of one day and rounds of an hour: after
    thirty rounds [execute] is still polling. *)
Example day_long_run_still_polling :
  execute sample_ext (sample_inputs "run {args}" 2 86400) hourly_env 30 empty_world
  = None.
Proof. vm_compute. reflexivity. Qed.

(** Below one day the timeout does fire.  Scenario D: with a timeout
    of 15 seconds - one polling interval - and no task ever done, the
    first check, made before any sleep, passes; the second one, after
    one round, ends the loop with [success = False] and every task
    still in the set. *)
Lemma one_interval_timeout ext inputs env taskInfos fuel w :
  dict_order_ok ext ->
  TaskTimeoutSeconds inputs = 15 ->
  size taskInfos <> 0%nat ->
  0 <= time_check env 0 - time_start env < 15000000 ->
  15000000 <= time_check env 1 - time_start env < 86400000000 ->
  no_markers taskInfos (workers env 0 (files w)) ->
  execute_loop ext inputs env (S fuel) 0 (Timer_enter (time_start env) Timer_init)
               taskInfos true w
  = Some (Ok (false, taskInfos), set_files (workers env 0) w).
Proof.
  intros Hperm HT Hsize H0 H1 Hno.
  rewrite (execute_loop_polls _ _ _ _ _ _ _ _ _ _ Hsize (Timer_seconds_running _ _)).
  - rewrite poll_pass_no_markers by done.
    apply (execute_loop_times_out _ _ _ _ _ _ _ _ _ _ Hsize (Timer_seconds_running _ _)).
    assert (15 <= (time_check env 1 - time_start env) / 1000000 < 86400)
      by (split; [apply Z.div_le_lower_bound; lia|apply Z.div_lt_upper_bound; lia]).
    rewrite HT, Z.mod_small; lia.
  - assert (0 <= (time_check env 0 - time_start env) / 1000000 < 15)
      by (split; [apply Z.div_pos; lia|apply Z.div_lt_upper_bound; lia]).
    rewrite HT, Z.mod_small; lia.
Qed.

Example scenario_D :
  execute_loop sample_ext (sample_inputs "run {args}" 2 15) idle_env 5 0
               (Timer_enter (time_start idle_env) Timer_init)
               sample_tasks true empty_world
  = Some (Ok (false, sample_tasks), empty_world).
Proof. vm_compute. reflexivity. Qed.

(** ** The worker *)

Lemma str_app_nonempty s1 s2 : s2 <> "" -> s1 +:+ s2 <> "".
Proof. destruct s1; simpl; [done|discriminate]. Qed.

Lemma str_last_app s1 s2 : s2 <> "" -> str_last (s1 +:+ s2) = str_last s2.
Proof.
  intros Hne. induction s1 as [|c s1 IH]; [done|].
  change (String c s1 +:+ s2) with (String c (s1 +:+ s2)).
  simpl. pose proof (str_app_nonempty s1 s2 Hne).
  by destruct (s1 +:+ s2).
Qed.

Lemma str_last_join a b : b <> "" -> str_last (os_path_join a b) = str_last b.
Proof.
  intros Hne. unfold os_path_join.
  destruct (String.prefix "/" b); [done|].
  destruct (_ || _); rewrite str_last_app; try done.
  by rewrite str_last_app.
Qed.

Lemma status_output_distinct dir name name' roiStr :
  os_path_join dir (status_file_name name roiStr)
  <> os_path_join dir (output_file_name name' roiStr).
Proof.
  intros Heq. apply (f_equal str_last) in Heq.
  unfold status_file_name, output_file_name in Heq.
  rewrite !str_last_join in Heq by (by repeat apply str_app_nonempty).
  rewrite !str_last_app in Heq by (by repeat apply str_app_nonempty).
  discriminate.
Qed.

Lemma run_steps_app steps1 steps2 fs :
  run_steps (steps1 ++ steps2) fs = run_steps steps2 (run_steps steps1 fs).
Proof. apply foldl_app. Qed.

Lemma along_app Pre Mid Post Inv steps1 steps2 :
  along Pre steps1 Inv Mid -> along Mid steps2 Inv Post ->
  along Pre (steps1 ++ steps2) Inv Post.
Proof.
  intros H1 H2 fs Hpre. destruct (H1 fs Hpre) as [Hinv1 Hmid].
  destruct (H2 _ Hmid) as [Hinv2 Hpost]. split.
  - intros n. rewrite take_app, run_steps_app.
    destruct (decide (n <= length steps1)%nat) as [Hle|Hgt].
    + replace (n - length steps1)%nat with 0%nat by lia. apply Hinv1.
    + rewrite (take_ge steps1) by lia. apply Hinv2.
  - by rewrite run_steps_app.
Qed.

Lemma along_preserved (P Inv : gmap string file -> Prop) steps :
  (forall f fs, f ∈ steps -> P fs -> P (f fs)) ->
  (forall fs, P fs -> Inv fs) ->
  along P steps Inv P.
Proof.
  intros Hstep Hinv. induction steps as [|f steps IH]; intros fs HP.
  - split; [|done]. intros n. rewrite take_nil. by apply Hinv.
  - destruct (IH (fun g fs' Hg => Hstep g fs' (list_elem_of_further _ _ _ Hg))
                (f fs) (Hstep f fs (list_elem_of_here _ _) HP)) as [Hn Hend].
    split; [|done]. intros [|n]; [by apply Hinv|apply Hn].
Qed.

Lemma along_step (P Q Inv : gmap string file -> Prop) f :
  (forall fs, P fs -> Inv fs) ->
  (forall fs, P fs -> Q (f fs)) ->
  (forall fs, Q fs -> Inv fs) ->
  along P [f] Inv Q.
Proof.
  intros HP Hf HQ fs Hfs. split; [|by apply Hf].
  intros [|n]; [by apply HP|]. simpl. rewrite take_nil. by apply HQ, Hf.
Qed.

(** C4: in every state the file system goes through while
    [OpTaskWorker.execute] runs, the output path is untouched unless
    the temporary file is complete, and the status file exists only if
    the output file is the complete result; and when the worker is
    through, both are there. *)
Theorem worker_marker_after_output run fs0 n :
  fs0 !! wk_statusFilePath run = None ->
  private_tmp run ->
  worker_inv run fs0 (worker_state run n fs0)
  /\ ((length (worker_steps run) <= n)%nat ->
      is_Some (worker_state run n fs0 !! wk_statusFilePath run)
      /\ worker_state run n fs0 !! wk_outputFilePath run = Some (wk_result_file run)).
Proof.
  intros Hfresh (Hd1 & Hd2 & Ht1 & Ht2).
  assert (Hso : wk_statusFilePath run <> wk_outputFilePath run)
    by apply status_output_distinct.
  set (P1 := fun fs : gmap string file =>
               fs !! wk_statusFilePath run = None
               /\ fs !! wk_outputFilePath run = fs0 !! wk_outputFilePath run).
  set (P2 := fun fs : gmap string file =>
               fs !! wk_statusFilePath run = None
               /\ fs !! wk_tmpOutputFile run = Some (wk_result_file run)).
  set (P3 := fun fs : gmap string file =>
               fs !! wk_tmpOutputFile run = Some (wk_result_file run)
               /\ fs !! wk_outputFilePath run = Some (wk_result_file run)).
  set (P4 := fun fs : gmap string file =>
               P3 fs /\ is_Some (fs !! wk_statusFilePath run)).
  assert (I1 : forall fs, P1 fs -> worker_inv run fs0 fs).
  { intros fs [Hs Ho]. split; [rewrite Hs; by intros [? ?]|by left]. }
  assert (I2 : forall fs, P2 fs -> worker_inv run fs0 fs).
  { intros fs [Hs Ht]. split; [rewrite Hs; by intros [? ?]|by right]. }
  assert (I3 : forall fs, P3 fs -> worker_inv run fs0 fs).
  { intros fs [Ht Ho]. split; [done|by right]. }
  assert (I4 : forall fs, P4 fs -> worker_inv run fs0 fs).
  { intros fs [H3 _]. by apply I3. }
  assert (Hall : along P1 (worker_steps run) (worker_inv run fs0) P4).
  { unfold worker_steps.
    apply (along_app P1 P1); [|apply (along_app P1 P1); [|apply (along_app P1 P2);
      [|apply (along_app P2 P2); [|apply (along_app P2 P3)]]]].
    - apply along_step; [done| |done]. intros fs [Hs Ho].
      split; by rewrite lookup_insert_ne.
    - apply along_preserved; [|done]. intros f fs Hf [Hs Ho].
      apply list_elem_of_fmap in Hf as (i & -> & _).
      split; by rewrite lookup_insert_ne.
    - apply along_step; [done| |done]. intros fs [Hs Ho].
      split; [by rewrite lookup_insert_ne|by rewrite lookup_insert_eq].
    - apply along_preserved; [|done]. intros f fs Hf [Hs Ht].
      apply list_elem_of_fmap in Hf as (i & -> & _).
      split; by rewrite lookup_insert_ne.
    - apply along_step; [done| |done]. intros fs [Hs Ht]. rewrite Ht.
      split; [by rewrite lookup_insert_ne|by rewrite lookup_insert_eq].
    - apply (along_app P3 P4 P4 _ [_] [_]).
      + apply along_step; [done| |done]. intros fs [Ht Ho].
        split; [split; by rewrite lookup_insert_ne|].
        rewrite lookup_insert_eq. eauto.
      + apply along_step; [done| |done]. intros fs [[Ht Ho] _].
        split; [split; by rewrite lookup_insert_ne|].
        rewrite lookup_insert_eq. eauto. }
  destruct (Hall fs0) as [Hinv Hend]; [by split|].
  split; [apply Hinv|]. intros Hn. unfold worker_state.
  rewrite take_ge by done. destruct Hend as [[_ Ho] Hs]. by split.
Qed.

Lemma worker_marker_after_output_witness :
  worker_inv sample_worker ∅ (worker_state sample_worker 10 ∅)
  /\ ((length (worker_steps sample_worker) <= 10)%nat ->
      is_Some (worker_state sample_worker 10 ∅ !! wk_statusFilePath sample_worker)
      /\ worker_state sample_worker 10 ∅ !! wk_outputFilePath sample_worker
         = Some (wk_result_file sample_worker)).
Proof.
  apply (worker_marker_after_output sample_worker ∅ 10).
  - reflexivity.
  - repeat split; vm_compute; congruence.
Defined.

(** * Further properties *)

(** ** [Timer.seconds] *)

(** X1: a started timer reads a value in [0, 86400) that is the whole
    number of elapsed seconds less a whole number of days; below one
    day it is the whole number of elapsed seconds.  Once the timer is
    stopped the reading is that of the stop time. *)
Theorem Timer_seconds_reading t start now :
  startTime t = Some start ->
  0 <= default now (stopTime t) - start ->
  exists elapsed d,
    Timer_seconds t now = Ok elapsed
    /\ 0 <= elapsed < 86400 /\ 0 <= d
    /\ (elapsed + 86400 * d) * 1000000 <= default now (stopTime t) - start
       < (elapsed + 86400 * d + 1) * 1000000
    /\ (default now (stopTime t) - start < 86400000000 -> d = 0).
Proof.
  intros Hstart Hpos. unfold Timer_seconds. rewrite Hstart.
  set (total := default now (stopTime t) - start) in *.
  exists ((total / 1000000) mod 86400), ((total / 1000000) / 86400).
  assert (Hq : 0 <= total / 1000000) by (apply Z.div_pos; lia).
  pose proof (Z.div_mod (total / 1000000) 86400 ltac:(lia)) as Hdm.
  pose proof (Z.mod_pos_bound (total / 1000000) 86400 ltac:(lia)).
  pose proof (Z.mul_div_le total 1000000 ltac:(lia)).
  pose proof (Z.mul_succ_div_gt total 1000000 ltac:(lia)).
  split; [|split; [done|split; [by apply Z.div_pos; lia|split; [lia|]]]].
  - unfold total. by destruct (stopTime t).
  - intros Hday. apply Z.div_small. split; [done|].
    apply Z.div_lt_upper_bound; lia.
Qed.

Lemma Timer_seconds_reading_witness :
  exists elapsed d,
    Timer_seconds (Timer_exit 90061000000 (Timer_enter 0 Timer_init)) 123 = Ok elapsed
    /\ 0 <= elapsed < 86400 /\ 0 <= d
    /\ (elapsed + 86400 * d) * 1000000 <= 90061000000 - 0
       < (elapsed + 86400 * d + 1) * 1000000
    /\ (90061000000 - 0 < 86400000000 -> d = 0).
Proof.
  apply (Timer_seconds_reading (Timer_exit 90061000000 (Timer_enter 0 Timer_init)) 0 123).
  - reflexivity.
  - simpl. lia.
Defined.

(** ** More on the partitioner *)

Ltac fmap_form :=
  repeat match goal with
         | |- context [map ?f ?l] => change (map f l) with (f <$> l)
         | H : context [map ?f ?l] |- _ => change (map f l) with (f <$> l) in H
         end.

Section PartitionerShape.

Context (pow_round : Z -> nat -> result Z).

(** What a successful call has computed. *)
Lemma getRoiList_inv taggedShape numJobs rois :
  _getRoiList pow_round taggedShape numJobs = Ok rois ->
  exists k,
    numJobsPerSpaceDim pow_round taggedShape numJobs = Ok k
    /\ k <> 0
    /\ Forall (fun kd => block_of taggedShape k kd <> 0) taggedShape
    /\ rois = map (cell (shape_of taggedShape) (map (block_of taggedShape k) taggedShape))
                  (product (map (fun kd => range_elems kd.2 (block_of taggedShape k kd))
                                taggedShape)).
Proof.
  intros H. unfold _getRoiList in H.
  destruct (numJobsPerSpaceDim _ _ _) as [k|] eqn:Hk; [simpl in H|done].
  assert (Hk0 : k <> 0).
  { intros ->. rewrite roiShape_zero in H; [done|].
    unfold numJobsPerSpaceDim in Hk. by destruct (spaceDims taggedShape). }
  rewrite roiShape_Ok in H by done. simpl in H.
  assert (Hnz : Forall2 (fun _ s => s <> 0) (shape_of taggedShape)
                        (map (block_of taggedShape k) taggedShape)).
  { unfold roi_grid in H. destruct (mapR _ _) as [ranges|] eqn:Hr; [|done].
    eapply ranges_Ok_inv; [|done]. unfold shape_of. by rewrite !length_fmap. }
  rewrite roi_grid_Ok in H by done. injection H as <-.
  exists k. split; [done|]. split; [done|]. split.
  - unfold shape_of in Hnz. apply Forall2_fmap in Hnz.
    apply Forall_forall. intros kd Hkd.
    apply Forall2_same_length_lookup in Hnz as [_ Hnz].
    apply list_elem_of_lookup in Hkd as [i Hi]. by eapply Hnz.
  - unfold shape_of. by rewrite zip_with_fmap_l, zip_with_fmap_r, zip_with_diag.
Qed.

(** One axis of one region. *)
Lemma region_axis taggedShape k indices i kd :
  indices ∈ product (map (fun kd => range_elems kd.2 (block_of taggedShape k kd))
                         taggedShape) ->
  taggedShape !! i = Some kd ->
  exists x,
    indices !! i = Some x
    /\ x ∈ range_elems kd.2 (block_of taggedShape k kd)
    /\ (cell (shape_of taggedShape) (map (block_of taggedShape k) taggedShape) indices).2
         !! i = Some (Z.min (wrap64 (x + block_of taggedShape k kd)) kd.2).
Proof.
  intros Hidx Hi. unfold tagged_shape in *.
  apply elem_of_product in Hidx. fmap_form.
  destruct (Forall2_lookup_r _ _ _ i (range_elems kd.2 (block_of taggedShape k kd)) Hidx)
    as (x & Hx & Hin); [by rewrite list_lookup_fmap, Hi|].
  exists x. split; [done|]. split; [done|].
  unfold cell, np_minimum, np_add, shape_of. simpl.
  rewrite !lookup_zip_with, Hx, !list_lookup_fmap, Hi. done.
Qed.

Lemma region_length taggedShape k indices :
  indices ∈ product (map (fun kd => range_elems kd.2 (block_of taggedShape k kd))
                         taggedShape) ->
  length indices = length taggedShape
  /\ length (cell (shape_of taggedShape) (map (block_of taggedShape k) taggedShape)
                  indices).2 = length taggedShape.
Proof.
  intros Hidx. apply elem_of_product, Forall2_length in Hidx. fmap_form.
  rewrite length_fmap in Hidx. split; [done|].
  unfold cell, np_minimum, np_add, shape_of. simpl.
  rewrite !length_zip_with, !length_fmap. lia.
Qed.

End PartitionerShape.

Lemma region_structure pow_round taggedShape numJobs rois r :
  shape_wf taggedShape ->
  _getRoiList pow_round taggedShape numJobs = Ok rois ->
  r ∈ rois ->
  length r.1 = length taggedShape /\ length r.2 = length taggedShape
  /\ exists k,
       numJobsPerSpaceDim pow_round taggedShape numJobs = Ok k
       /\ forall i kd, taggedShape !! i = Some kd ->
            exists a s,
              s = block_of taggedShape k kd /\ 0 < s
              /\ r.1 !! i = Some a /\ r.2 !! i = Some (Z.min (a + s) kd.2)
              /\ 0 <= a < kd.2 /\ a mod s = 0.
Proof.
  intros Hwf H Hr. destruct (getRoiList_inv _ _ _ _ H) as (k & Hk & Hk0 & Hnz & ->).
  apply list_elem_of_fmap in Hr as (indices & -> & Hidx).
  destruct (region_length _ _ _ Hidx) as [Hl1 Hl2].
  split; [done|]. split; [done|]. exists k. split; [done|].
  intros i kd Hi.
  destruct (region_axis _ _ _ _ _ Hidx Hi) as (x & Hx & Hin & Hstop).
  assert (Hd : 0 <= kd.2 < 2 ^ 62).
  { unfold shape_wf, shape_of in Hwf. rewrite Forall_fmap, Forall_forall in Hwf.
    by eapply (Hwf kd), list_elem_of_lookup_2. }
  assert (Hs : block_of taggedShape k kd <> 0).
  { rewrite Forall_forall in Hnz. by eapply Hnz, list_elem_of_lookup_2. }
  apply elem_of_range_elems in Hin as (Hpos & Hxr & Hmul); [|done|lia].
  assert (Hle : block_of taggedShape k kd <= kd.2).
  { unfold block_of in *. destruct (bool_decide _); [|lia].
    destruct (Z.lt_trichotomy k 0) as [Hneg|[->|Hkpos]]; [|done|].
    - pose proof (Z.div_mod kd.2 k Hk0). pose proof (Z.mod_neg_bound kd.2 k Hneg). nia.
    - apply Z.div_le_upper_bound; nia. }
  exists x, (block_of taggedShape k kd).
  rewrite wrap64_small in Hstop by lia.
  repeat split; try done; try lia.
  rewrite Z.mod_eq by lia. lia.
Qed.

(** X2: every region has the rank of the shape and, along each axis,
    starts at a multiple of the block size of that axis and stops one
    block further, clipped to the extent: the regions never leave the
    input shape, and only the last block of an axis can be shorter. *)
Theorem getRoiList_region_structure pow_round taggedShape numJobs rois r :
  shape_wf taggedShape ->
  _getRoiList pow_round taggedShape numJobs = Ok rois ->
  r ∈ rois ->
  length r.1 = length taggedShape /\ length r.2 = length taggedShape
  /\ exists k,
       numJobsPerSpaceDim pow_round taggedShape numJobs = Ok k
       /\ forall i kd, taggedShape !! i = Some kd ->
            exists a s,
              s = block_of taggedShape k kd /\ 0 < s
              /\ r.1 !! i = Some a /\ r.2 !! i = Some (Z.min (a + s) kd.2)
              /\ 0 <= a < kd.2 /\ a mod s = 0.
Proof. apply region_structure. Qed.

Lemma getRoiList_region_structure_witness :
  length ([4; 0] : list Z) = 2%nat /\ length ([5; 5] : list Z) = 2%nat
  /\ exists k,
       numJobsPerSpaceDim exact_pow_round [("y", 5); ("c", 5)] 2 = Ok k
       /\ forall i kd, [("y", 5); ("c", 5)] !! i = Some kd ->
            exists a s,
              s = block_of [("y", 5); ("c", 5)] k kd /\ 0 < s
              /\ [4; 0] !! i = Some a /\ [5; 5] !! i = Some (Z.min (a + s) kd.2)
              /\ 0 <= a < kd.2 /\ a mod s = 0.
Proof.
  apply (getRoiList_region_structure exact_pow_round [("y", 5); ("c", 5)] 2
           [([0; 0], [2; 5]); ([2; 0], [4; 5]); ([4; 0], [5; 5])] ([4; 0], [5; 5])).
  - repeat constructor; vm_compute; congruence.
  - vm_compute. reflexivity.
  - set_solver.
Defined.

(** X3: an axis that is not split - its key is not x, y or z, or its
    extent is at most 1 - is whole in every region: from 0 to the
    extent. *)
Theorem getRoiList_keeps_other_axes pow_round taggedShape numJobs rois r i kd :
  shape_wf taggedShape ->
  _getRoiList pow_round taggedShape numJobs = Ok rois ->
  r ∈ rois ->
  taggedShape !! i = Some kd ->
  kd.1 ∉ (spaceDims taggedShape).*1 ->
  r.1 !! i = Some 0 /\ r.2 !! i = Some kd.2.
Proof.
  intros Hwf H Hr Hi Hkey.
  destruct (region_structure _ _ _ _ _ Hwf H Hr) as (_ & _ & k & _ & Hax).
  destruct (Hax i kd Hi) as (a & s & Hs & Hpos & Ha & Hb & Hrange & Hmod).
  unfold block_of in Hs. rewrite bool_decide_false in Hs by done. subst s.
  rewrite Z.mod_small in Hmod by done. subst a.
  rewrite Ha, Hb. split; [done|]. f_equal. lia.
Qed.

Lemma getRoiList_keeps_other_axes_witness :
  ([4; 0] : list Z) !! 1%nat = Some 0
  /\ ([5; 5] : list Z) !! 1%nat = Some (("c", 5) : string * Z).2.
Proof.
  apply (getRoiList_keeps_other_axes exact_pow_round [("y", 5); ("c", 5)] 2
           [([0; 0], [2; 5]); ([2; 0], [4; 5]); ([4; 0], [5; 5])] ([4; 0], [5; 5])
           1 ("c", 5)).
  - repeat constructor; vm_compute; congruence.
  - vm_compute. reflexivity.
  - set_solver.
  - reflexivity.
  - by apply (bool_decide_unpack _); vm_compute.
Defined.

Lemma product_ranges_whole shape :
  Forall (fun d => 0 < d) shape ->
  product (zip_with range_elems shape shape) = [map (fun _ => 0) shape].
Proof.
  induction 1 as [|d ds Hd _ IH]; simpl; [done|].
  rewrite IH. unfold range_elems, range_len.
  assert ((0 <? d) = true) as -> by (by apply Z.ltb_lt).
  replace ((d - 1) / d + 1) with 1; [done|].
  rewrite Z.div_small; lia.
Qed.

Lemma cell_whole shape :
  Forall (fun d => 0 < d < 2 ^ 62) shape ->
  cell shape shape (map (fun _ => 0) shape) = whole_shape shape.
Proof.
  unfold cell, whole_shape, np_minimum, np_add. intros H. f_equal.
  induction H as [|d ds Hd _ IH]; simpl; [done|].
  rewrite IH, wrap64_small by lia. f_equal. lia.
Qed.

(** X4: with one block per axis - as for a job count of 1 - the
    partitioner returns exactly one region, the whole shape. *)
Theorem getRoiList_single_block pow_round taggedShape numJobs :
  Forall (fun d => 0 < d < 2 ^ 62) (shape_of taggedShape) ->
  spaceDims taggedShape <> [] ->
  pow_round numJobs (length (spaceDims taggedShape)) = Ok 1 ->
  _getRoiList pow_round taggedShape numJobs = Ok [whole_shape (shape_of taggedShape)].
Proof.
  intros Hext Hne Hpow. unfold _getRoiList, numJobsPerSpaceDim.
  destruct (length (spaceDims taggedShape)) eqn:Hlen;
    [by destruct (spaceDims taggedShape)|].
  rewrite Hpow. simpl. rewrite roiShape_Ok by lia. simpl.
  assert (Hblock : map (block_of taggedShape 1) taggedShape = shape_of taggedShape).
  { unfold shape_of. apply list_fmap_ext. intros i kd _. unfold block_of.
    destruct (bool_decide _); [apply Z.div_1_r|done]. }
  rewrite Hblock, roi_grid_Ok.
  - rewrite product_ranges_whole by (eapply Forall_impl; [done|]; simpl; lia).
    simpl. by rewrite cell_whole.
  - apply Forall_Forall2_diag. eapply Forall_impl; [done|]. simpl. lia.
Qed.

Lemma getRoiList_single_block_witness :
  _getRoiList exact_pow_round scenario_A_shape 1
  = Ok [whole_shape (shape_of scenario_A_shape)].
Proof.
  apply (getRoiList_single_block exact_pow_round scenario_A_shape 1).
  - repeat constructor; vm_compute; congruence.
  - vm_compute. congruence.
  - vm_compute. reflexivity.
Defined.

(** X5: when the number of blocks per axis exceeds the extent of an
    axis that is split, the block size of that axis is 0 and the
    partitioner raises [ValueError], the zero step of [range]. *)
Theorem getRoiList_too_many_blocks pow_round taggedShape numJobs k kd :
  pow_round numJobs (length (spaceDims taggedShape)) = Ok k ->
  kd ∈ spaceDims taggedShape ->
  kd.2 < k ->
  _getRoiList pow_round taggedShape numJobs = Raise ValueError.
Proof.
  intros Hpow Hkd Hlt.
  assert (Hin : kd ∈ taggedShape /\ 1 < kd.2).
  { apply list_elem_of_filter in Hkd as [HP ?]. split; [done|].
    apply andb_prop in HP as [_ HP]. by apply Z.ltb_lt. }
  destruct Hin as [Hin Hd].
  unfold _getRoiList, numJobsPerSpaceDim.
  destruct (length (spaceDims taggedShape)) eqn:Hlen;
    [by destruct (spaceDims taggedShape); [apply elem_of_nil in Hkd|]|].
  rewrite Hpow. simpl. rewrite roiShape_Ok by lia. simpl.
  unfold roi_grid. rewrite (mapR_Raise _ _ ValueError); [done| |].
  - intros [d s] _. unfold py_range0. simpl. destruct (s =? 0); eauto.
  - exists (kd.2, block_of taggedShape k kd). split.
    + unfold shape_of. fmap_form.
      rewrite zip_with_fmap_l, zip_with_fmap_r, zip_with_diag.
      apply list_elem_of_fmap. by exists kd.
    + unfold py_range0, block_of. simpl.
      rewrite bool_decide_true by (apply list_elem_of_fmap; eauto).
      by rewrite Z.div_small by lia.
Qed.

Lemma getRoiList_too_many_blocks_witness :
  _getRoiList exact_pow_round [("x", 2); ("c", 3)] 3 = Raise ValueError.
Proof.
  apply (getRoiList_too_many_blocks exact_pow_round [("x", 2); ("c", 3)] 3 3 ("x", 2)).
  - vm_compute. reflexivity.
  - vm_compute. left.
  - simpl. lia.
Defined.

Lemma cell_starts inputShape blockShape (l : list (list Z)) :
  (map (cell inputShape blockShape) l).*1 = l.
Proof. induction l as [|x l IH]; [done|]. simpl. f_equal. exact IH. Qed.

Lemma getRoiList_NoDup pow_round taggedShape numJobs rois :
  _getRoiList pow_round taggedShape numJobs = Ok rois ->
  NoDup rois.*1 /\ NoDup rois.
Proof.
  intros H. destruct (getRoiList_inv _ _ _ _ H) as (k & _ & _ & Hnz & ->).
  assert (Hnd : NoDup (map (cell (shape_of taggedShape)
                                 (map (block_of taggedShape k) taggedShape))
                           (product (map (fun kd => range_elems kd.2
                                                      (block_of taggedShape k kd))
                                         taggedShape))).*1).
  { rewrite cell_starts. fmap_form.
    apply NoDup_product. rewrite Forall_fmap. eapply Forall_impl; [done|].
    intros kd Hs. by apply NoDup_range_elems. }
  split; [done|]. by eapply NoDup_fmap_1.
Qed.

(** X6: the regions of one call have pairwise different start
    corners; in particular no region is listed twice. *)
Theorem getRoiList_starts_distinct pow_round taggedShape numJobs rois :
  _getRoiList pow_round taggedShape numJobs = Ok rois ->
  NoDup rois.*1 /\ NoDup rois.
Proof. apply getRoiList_NoDup. Qed.

Lemma getRoiList_starts_distinct_witness :
  NoDup ([([0; 0], [2; 5]); ([2; 0], [4; 5]); ([4; 0], [5; 5])] : list roi).*1
  /\ NoDup ([([0; 0], [2; 5]); ([2; 0], [4; 5]); ([4; 0], [5; 5])] : list roi).
Proof.
  apply (getRoiList_starts_distinct exact_pow_round [("y", 5); ("c", 5)] 2).
  vm_compute. reflexivity.
Defined.

Lemma length_product {A} (ls : list (list A)) :
  length (product ls) = foldr (fun l n => (length l * n)%nat) 1%nat ls.
Proof.
  induction ls as [|l ls IH]; simpl; [done|].
  rewrite <- IH. induction l as [|x l IHl]; simpl; [done|].
  rewrite length_app, length_map, IHl. done.
Qed.

Lemma filter_ext_elem {A} (P Q : A -> Prop) `{!forall x, Decision (P x)}
    `{!forall x, Decision (Q x)} (l : list A) :
  (forall x, x ∈ l -> P x <-> Q x) -> filter P l = filter Q l.
Proof.
  induction l as [|x l IH]; intros Hext; [done|].
  rewrite !filter_cons. rewrite IH by (intros y Hy; apply Hext; by right).
  pose proof (Hext x (list_elem_of_here _ _)) as Hx.
  destruct (decide (P x)) as [HP|HP], (decide (Q x)) as [HQ|HQ]; try done.
  - exfalso. by apply HQ, Hx.
  - exfalso. by apply HP, Hx.
Qed.

Lemma split_axes_are_spaceDims taggedShape :
  NoDup taggedShape.*1 ->
  filter (fun kd : string * Z => kd.1 ∈ (spaceDims taggedShape).*1) taggedShape
  = spaceDims taggedShape.
Proof.
  intros Hnd. unfold spaceDims at 2. apply filter_ext_elem. intros kd Hkd. split.
  - intros Hkey. apply space_key_extent in Hkey; [|done..].
    by apply list_elem_of_filter in Hkey as [? _].
  - intros HP. apply list_elem_of_fmap. exists kd. split; [done|].
    by apply list_elem_of_filter.
Qed.

Lemma length_product_count {A} (P : A -> Prop) `{!forall x, Decision (P x)}
    (f : A -> list Z) (c : nat) (l : list A) :
  (forall x, x ∈ l -> length (f x) = if decide (P x) then c else 1%nat) ->
  length (product (f <$> l)) = (c ^ length (filter P l))%nat.
Proof.
  rewrite length_product. induction l as [|x l IH]; intros Hlen; [done|].
  rewrite fmap_cons, filter_cons. simpl foldr.
  rewrite IH by (intros y Hy; apply Hlen; by right).
  rewrite (Hlen x) by left. destruct (decide (P x)); simpl; lia.
Qed.

(** X7: when the number of blocks per axis divides the extent of every
    axis that is split, the partitioner returns exactly k^S regions, S
    being the number of axes that are split - for instance J regions
    when J is a perfect S-th power. *)
Theorem getRoiList_count pow_round taggedShape numJobs k :
  NoDup taggedShape.*1 ->
  Forall (fun d => 0 < d) (shape_of taggedShape) ->
  spaceDims taggedShape <> [] ->
  pow_round numJobs (length (spaceDims taggedShape)) = Ok k ->
  1 <= k ->
  Forall (fun kd : string * Z => (k | kd.2)) (spaceDims taggedShape) ->
  exists rois,
    _getRoiList pow_round taggedShape numJobs = Ok rois
    /\ length rois = (Z.to_nat k ^ length (spaceDims taggedShape))%nat.
Proof.
  intros Hnd Hext Hne Hpow Hk Hdiv.
  assert (Hax : forall kd, kd ∈ taggedShape ->
            0 < block_of taggedShape k kd
            /\ length (range_elems kd.2 (block_of taggedShape k kd))
               = if decide (kd.1 ∈ (spaceDims taggedShape).*1)
                 then Z.to_nat k else 1%nat).
  { intros kd Hkd.
    assert (Hd : 0 < kd.2).
    { unfold shape_of in Hext. rewrite Forall_fmap, Forall_forall in Hext.
      by apply (Hext kd). }
    unfold block_of, range_elems, range_len. rewrite length_map, length_seq.
    destruct (decide _) as [Hkey|Hkey].
    - rewrite bool_decide_true by done.
      apply space_key_extent in Hkey; [|done..].
      rewrite Forall_forall in Hdiv. destruct (Hdiv _ Hkey) as [m Hm].
      rewrite Hm in *. rewrite Z.div_mul by lia.
      assert (0 < m) by nia. split; [done|].
      assert ((0 <? m) = true) as -> by (by apply Z.ltb_lt).
      assert ((0 <? m * k) = true) as -> by (apply Z.ltb_lt; nia).
      replace ((m * k - 1) / m) with (k - 1); [f_equal; lia|].
      apply (Z.div_unique (m * k - 1) m (k - 1) (m - 1)); lia.
    - rewrite bool_decide_false by done. split; [done|].
      assert ((0 <? kd.2) = true) as -> by (by apply Z.ltb_lt).
      rewrite Z.div_small by lia. done. }
  eexists. split.
  - unfold _getRoiList, numJobsPerSpaceDim.
    destruct (length (spaceDims taggedShape)) eqn:Hlen;
      [by destruct (spaceDims taggedShape)|].
    rewrite Hpow. simpl. rewrite roiShape_Ok by lia. simpl.
    apply roi_grid_Ok. unfold shape_of. fmap_form.
    apply Forall2_fmap, Forall_Forall2_diag, Forall_forall.
    intros kd Hkd. destruct (Hax kd Hkd). lia.
  - rewrite length_map. unfold shape_of. fmap_form.
    rewrite zip_with_fmap_l, zip_with_fmap_r, zip_with_diag.
    rewrite (length_product_count
               (fun kd : string * Z => kd.1 ∈ (spaceDims taggedShape).*1) _ (Z.to_nat k))
      by (intros kd Hkd; by destruct (Hax kd Hkd)).
    by rewrite split_axes_are_spaceDims.
Qed.

Lemma getRoiList_count_witness :
  exists rois,
    _getRoiList exact_pow_round scenario_A_shape 8 = Ok rois
    /\ length rois = (Z.to_nat 2 ^ length (spaceDims scenario_A_shape))%nat.
Proof.
  apply (getRoiList_count exact_pow_round scenario_A_shape 8 2).
  - by apply (bool_decide_unpack _); vm_compute.
  - repeat constructor.
  - vm_compute. congruence.
  - vm_compute. reflexivity.
  - lia.
  - vm_compute. repeat constructor.
    + by exists 50.
    + by exists 50.
    + by exists 15.
Defined.

(** ** More on task preparation *)

Section PrepareFacts.

Context (ext : externals) (inputs : cluster_inputs).

Lemma remove_stale_bind {A} path (k : M A) w :
  (stale ← os_path_exists path;
   _ ← (if stale : bool then os_remove path else mret tt); k) w
  = match files w !! path with
    | Some Directory => (Raise OSError, w)
    | _ => k (set_files (delete path) w)
    end.
Proof.
  unfold mbind, M_bind, os_path_exists, os_remove.
  destruct (files w !! path) as [f|] eqn:Hf.
  - rewrite bool_decide_true by eauto. rewrite Hf. by destruct f.
  - rewrite bool_decide_false by (by intros [? ?]).
    unfold mret, M_ret, set_files. rewrite delete_id by done. by destruct w.
Qed.

Lemma prepare_task_inv taskInfos roiIndex r w taskInfos' w' :
  prepare_task ext inputs taskInfos roiIndex r w = (Ok taskInfos', w') ->
  exists cmd,
    taskInfos' = <[r := mk_task inputs roiIndex r cmd]> taskInfos
    /\ files w' = delete (task_output_path inputs roiIndex r)
                         (delete (task_status_path inputs roiIndex r) (files w))
    /\ spawned w' = spawned w.
Proof.
  unfold prepare_task. cbv zeta.
  fold (task_name roiIndex). fold (task_status_path inputs roiIndex r).
  fold (task_output_path inputs roiIndex r).
  unfold mbind at 1, M_bind at 1.
  destruct (py_assert _ w) as [[[]|e] w0] eqn:Hassert; [|done].
  assert (w0 = w) as ->.
  { unfold py_assert in Hassert. by destruct (negb _); injection Hassert. }
  unfold mbind at 1, M_bind at 1, lift at 1.
  destruct (str_format ext _ _ _) as [cmd|]; [|done].
  rewrite remove_stale_bind.
  destruct (files w !! task_status_path inputs roiIndex r) as [[]|];
    try done; rewrite remove_stale_bind;
    (destruct (files (set_files (delete (task_status_path inputs roiIndex r)) w)
               !! task_output_path inputs roiIndex r) as [[]|];
     try done; intros [= <- <-]; by exists cmd).
Qed.

Lemma prepare_loop_cons roiIndex r l taskInfos w tasks w' :
  prepare_loop ext inputs ((roiIndex, r) :: l) taskInfos w = (Ok tasks, w') ->
  exists cmd w1,
    files w1 = delete (task_output_path inputs roiIndex r)
                      (delete (task_status_path inputs roiIndex r) (files w))
    /\ spawned w1 = spawned w
    /\ prepare_loop ext inputs l (<[r := mk_task inputs roiIndex r cmd]> taskInfos) w1
       = (Ok tasks, w').
Proof.
  simpl. unfold mbind at 1, M_bind at 1.
  destruct (prepare_task ext inputs taskInfos roiIndex r w) as [[t1|e] w1] eqn:H1;
    [|done].
  apply prepare_task_inv in H1 as (cmd & -> & Hf & Hs). intros H. eauto.
Qed.

Lemma prepare_loop_tasks l taskInfos w tasks w' :
  prepare_loop ext inputs l taskInfos w = (Ok tasks, w') ->
  NoDup l.*2 ->
  spawned w' = spawned w
  /\ (forall r, r ∉ l.*2 -> tasks !! r = taskInfos !! r)
  /\ (forall i r, (i, r) ∈ l -> exists cmd, tasks !! r = Some (mk_task inputs i r cmd))
  /\ (forall r, r ∈ l.*2 ->
        exists i cmd, (i, r) ∈ l /\ tasks !! r = Some (mk_task inputs i r cmd)).
Proof.
  revert taskInfos w. induction l as [|[i0 r0] l IH]; intros acc w H Hnd.
  { injection H as <- <-. split; [done|]. split; [done|].
    split; [intros i r Hin|intros r Hin]; by apply elem_of_nil in Hin. }
  apply prepare_loop_cons in H as (cmd & w1 & Hf & Hs & H).
  simpl in Hnd. apply NoDup_cons in Hnd as [Hr0 Hnd].
  destruct (IH _ _ H Hnd) as (Hsp & Hout & Hin & Hin').
  assert (H0 : tasks !! r0 = Some (mk_task inputs i0 r0 cmd))
    by (by rewrite Hout, lookup_insert_eq).
  split; [congruence|]. split; [|split].
  - intros r Hr. simpl in Hr. apply not_elem_of_cons in Hr as [Hne Hr].
    by rewrite Hout, lookup_insert_ne.
  - intros i r Hir. apply elem_of_cons in Hir as [[= -> ->]|Hir]; eauto.
  - intros r Hr. simpl in Hr. apply elem_of_cons in Hr as [->|Hr].
    + exists i0, cmd. split; [left|done].
    + destruct (Hin' r Hr) as (i & cmd' & Hir & Ht). exists i, cmd'.
      split; [by right|done].
Qed.

Lemma prepare_loop_size l taskInfos w tasks w' :
  prepare_loop ext inputs l taskInfos w = (Ok tasks, w') ->
  NoDup l.*2 ->
  (forall r, r ∈ l.*2 -> taskInfos !! r = None) ->
  size tasks = (size taskInfos + length l)%nat.
Proof.
  revert taskInfos w. induction l as [|[i0 r0] l IH]; intros acc w H Hnd Hfresh.
  { injection H as <- <-. simpl. lia. }
  apply prepare_loop_cons in H as (cmd & w1 & Hf & Hs & H).
  simpl in Hnd. apply NoDup_cons in Hnd as [Hr0 Hnd].
  rewrite (IH _ _ H Hnd).
  - rewrite map_size_insert_None by (apply Hfresh; left). simpl. lia.
  - intros r Hr. rewrite lookup_insert_ne by (by intros ->).
    apply Hfresh. by right.
Qed.

Lemma prepare_loop_files l taskInfos w tasks w' :
  prepare_loop ext inputs l taskInfos w = (Ok tasks, w') ->
  (forall path,
     files w' !! path = files w !! path
     \/ (files w' !! path = None
         /\ exists i r, (i, r) ∈ l
              /\ (path = task_status_path inputs i r
                  \/ path = task_output_path inputs i r)))
  /\ (forall i r, (i, r) ∈ l ->
        files w' !! task_status_path inputs i r = None
        /\ files w' !! task_output_path inputs i r = None).
Proof.
  revert taskInfos w. induction l as [|[i0 r0] l IH]; intros acc w H.
  { injection H as <- <-. split; [by left|].
    intros i r Hin. by apply elem_of_nil in Hin. }
  apply prepare_loop_cons in H as (cmd & w1 & Hf & Hs & H).
  destruct (IH _ _ H) as [Hpath Hgone].
  assert (Hkeep : forall path, files w' !! path = files w1 !! path
                               \/ files w' !! path = None).
  { intros path. destruct (Hpath path) as [?|[? _]]; eauto. }
  assert (H1 : forall path,
             path = task_status_path inputs i0 r0
             \/ path = task_output_path inputs i0 r0 ->
             files w' !! path = None).
  { intros path Hp. destruct (Hkeep path) as [->|?]; [|done].
    rewrite Hf. apply lookup_delete_None.
    destruct (decide (task_output_path inputs i0 r0 = path)); [by left|right].
    apply lookup_delete_None. destruct Hp; [by left|done]. }
  split.
  - intros path.
    destruct (decide (path = task_status_path inputs i0 r0
                      \/ path = task_output_path inputs i0 r0)) as [Hp|Hp].
    { right. split; [by apply H1|]. exists i0, r0. split; [left|done]. }
    destruct (Hpath path) as [->|(? & i & r & ? & ?)].
    + left. rewrite Hf, !lookup_delete_ne; [done|intros <-; tauto..].
    + right. split; [done|]. exists i, r. split; [by right|done].
  - intros i r Hir. apply elem_of_cons in Hir as [[= -> ->]|Hir]; [|by apply Hgone].
    split; apply H1; eauto.
Qed.

Lemma elem_of_enumerate {A} (l : list A) a i x :
  (i, x) ∈ zip (seq a (length l)) l <-> (a <= i)%nat /\ l !! (i - a)%nat = Some x.
Proof.
  revert a. induction l as [|y l IH]; intros a; simpl.
  - split; [intros H; by apply elem_of_nil in H|by intros [_ ?]].
  - rewrite elem_of_cons, IH. split.
    + intros [[= -> ->]|[Hle Hl]].
      * split; [done|]. by rewrite Nat.sub_diag.
      * split; [lia|]. by replace (i - a)%nat with (S (i - S a)) by lia.
    + intros [Hle Hl]. destruct (decide (i = a)) as [->|Hne].
      * left. rewrite Nat.sub_diag in Hl. simpl in Hl. by injection Hl as ->.
      * right. split; [lia|].
        by replace (i - a)%nat with (S (i - S a)) in Hl by lia.
Qed.

(** What a successful preparation went through. *)
Lemma prepareTaskInfos_inv w tasks w' :
  _prepareTaskInfos ext inputs w = (Ok tasks, w') ->
  exists rois,
    _getRoiList (ext_pow_round ext) (meta_shape (Input_meta inputs)) (NumJobs inputs)
    = Ok rois
    /\ NoDup rois
    /\ (zip (seq 0 (length rois)) rois).*2 = rois
    /\ prepare_loop ext inputs (zip (seq 0 (length rois)) rois) ∅ w = (Ok tasks, w').
Proof.
  unfold _prepareTaskInfos, mbind at 1, M_bind at 1, lift.
  destruct (_getRoiList _ _ _) as [rois|] eqn:Hrois; [|done].
  intros H. exists rois. split; [done|].
  split; [by eapply getRoiList_NoDup|]. split; [|done].
  apply snd_zip. by rewrite length_seq.
Qed.

End PrepareFacts.

(** X8: a successful [_prepareTaskInfos] starts no process and creates
    no file; when it returns, neither the status file nor the output
    file of any prepared task exists, and every other path is as it was
    found. *)
Theorem prepareTaskInfos_removes_stale_files ext inputs w tasks w' :
  _prepareTaskInfos ext inputs w = (Ok tasks, w') ->
  spawned w' = spawned w
  /\ files w' ⊆ files w
  /\ (forall r taskInfo, tasks !! r = Some taskInfo ->
        files w' !! statusFilePath taskInfo = None
        /\ files w' !! outputFilePath taskInfo = None)
  /\ (forall path,
        (forall r taskInfo, tasks !! r = Some taskInfo ->
           path <> statusFilePath taskInfo /\ path <> outputFilePath taskInfo) ->
        files w' !! path = files w !! path).
Proof.
  intros H. destruct (prepareTaskInfos_inv _ _ _ _ _ H) as (rois & _ & Hnd & Hsnd & Hloop).
  assert (Hnd' : NoDup (zip (seq 0 (length rois)) rois).*2) by (by rewrite Hsnd).
  destruct (prepare_loop_tasks _ _ _ _ _ _ _ Hloop Hnd') as (Hsp & Hout & Hin & Hin').
  destruct (prepare_loop_files _ _ _ _ _ _ _ Hloop) as [Hpath Hgone].
  split; [done|]. split; [|split].
  - apply map_subseteq_spec. intros path f Hf.
    destruct (Hpath path) as [<-|[Hnone _]]; [done|congruence].
  - intros r ti Hr.
    destruct (decide (r ∈ (zip (seq 0 (length rois)) rois).*2)) as [Hr'|Hr'].
    + destruct (Hin' r Hr') as (i & cmd & Hir & Ht).
      assert (ti = mk_task inputs i r cmd) as -> by congruence.
      by apply Hgone.
    + rewrite Hout in Hr by done. by rewrite lookup_empty in Hr.
  - intros path Hother. destruct (Hpath path) as [?|(_ & i & r & Hir & Hp)]; [done|].
    destruct (Hin i r Hir) as (cmd & Ht).
    destruct (Hother _ _ Ht) as [Hs Ho]. by destruct Hp.
Qed.

Lemma prepareTaskInfos_removes_stale_files_witness :
  exists tasks w',
    _prepareTaskInfos sample_ext (sample_inputs "run {args}" 2 600)
      {| files := {[ "/scratch/TASK_0 status ((0, 0), (2, 2)).txt" := TextFile "Yay!";
                     "/scratch/keep.txt" := TextFile "" ]};
         spawned := [] |} = (Ok tasks, w')
    /\ spawned w' = []
    /\ files w' !! "/scratch/TASK_0 status ((0, 0), (2, 2)).txt" = None
    /\ files w' !! "/scratch/keep.txt" = Some (TextFile "").
Proof.
  destruct (_prepareTaskInfos sample_ext (sample_inputs "run {args}" 2 600)
      {| files := {[ "/scratch/TASK_0 status ((0, 0), (2, 2)).txt" := TextFile "Yay!";
                     "/scratch/keep.txt" := TextFile "" ]};
         spawned := [] |}) as [[tasks|e] w'] eqn:H; [|by vm_compute in H].
  exists tasks, w'. split; [done|].
  destruct (prepareTaskInfos_removes_stale_files _ _ _ _ _ H) as (Hsp & Hsub & Hgone & Hkeep).
  split; [done|]. vm_compute in H. injection H as <- <-. split; reflexivity.
Defined.

(** X9: a successful [_prepareTaskInfos] returns exactly one task per
    region of the partition: the task of the region of index [i] is
    named [TASK_i], is stored under the region, which is also its
    [subregion], and has the status and output paths built from that
    name and region in the scratch directory. *)
Theorem prepareTaskInfos_one_task_per_region ext inputs w tasks w' :
  _prepareTaskInfos ext inputs w = (Ok tasks, w') ->
  exists rois,
    _getRoiList (ext_pow_round ext) (meta_shape (Input_meta inputs)) (NumJobs inputs)
    = Ok rois
    /\ size tasks = length rois
    /\ (forall i r, rois !! i = Some r ->
          exists cmd, tasks !! r = Some (mk_task inputs i r cmd))
    /\ (forall r taskInfo, tasks !! r = Some taskInfo ->
          exists i cmd, rois !! i = Some r /\ taskInfo = mk_task inputs i r cmd).
Proof.
  intros H. destruct (prepareTaskInfos_inv _ _ _ _ _ H) as (rois & Hrois & Hnd & Hsnd & Hloop).
  assert (Hnd' : NoDup (zip (seq 0 (length rois)) rois).*2) by (by rewrite Hsnd).
  destruct (prepare_loop_tasks _ _ _ _ _ _ _ Hloop Hnd') as (_ & Hout & Hin & Hin').
  exists rois. split; [done|]. split; [|split].
  - rewrite (prepare_loop_size _ _ _ _ _ _ _ Hloop Hnd') by done.
    rewrite map_size_empty, length_zip, length_seq. lia.
  - intros i r Hir. apply Hin, elem_of_enumerate. split; [lia|].
    by rewrite Nat.sub_0_r.
  - intros r ti Hr.
    destruct (decide (r ∈ (zip (seq 0 (length rois)) rois).*2)) as [Hr'|Hr'].
    + destruct (Hin' r Hr') as (i & cmd & Hir & Ht). exists i, cmd.
      apply elem_of_enumerate in Hir as [_ Hir]. rewrite Nat.sub_0_r in Hir.
      split; [done|congruence].
    + rewrite Hout in Hr by done. by rewrite lookup_empty in Hr.
Qed.

Lemma prepareTaskInfos_one_task_per_region_witness :
  exists tasks w',
    _prepareTaskInfos sample_ext (sample_inputs "run {args}" 2 600) empty_world
    = (Ok tasks, w')
    /\ size tasks = 2%nat.
Proof.
  destruct (_prepareTaskInfos sample_ext (sample_inputs "run {args}" 2 600) empty_world)
    as [[tasks|e] w'] eqn:H; [|by vm_compute in H].
  exists tasks, w'. split; [done|].
  destruct (prepareTaskInfos_one_task_per_region _ _ _ _ _ H)
    as (rois & Hrois & Hsize & _).
  vm_compute in Hrois. injection Hrois as <-. exact Hsize.
Defined.

(** ** More on copying and polling *)

Section CopyFacts.

Context (ext : externals) (inputs : cluster_inputs).

Lemma dest_step_is_Some fs fs' path :
  dest_step inputs fs fs' -> is_Some (fs !! path) -> is_Some (fs' !! path).
Proof.
  intros [->|(h' & -> & _)] Hsome; [done|].
  rewrite lookup_insert. case_decide; [eauto|done].
Qed.

Lemma open_destination_spawned w res w' :
  open_destination inputs w = (res, w') -> spawned w' = spawned w.
Proof.
  unfold open_destination.
  destruct (files w !! OutputFilePath inputs) as [[| h | |]|];
    try (by intros [= <- <-]).
  by destruct (h !! "cluster_result"); intros [= <- <-].
Qed.

Lemma write_result_spawned r src w res w' :
  write_result ext inputs r src w = (res, w') -> spawned w' = spawned w.
Proof.
  unfold write_result.
  destruct (files w !! OutputFilePath inputs) as [[| h | |]|];
    try (by intros [= <- <-]).
  destruct (h !! "cluster_result"); [|by intros [= <- <-]].
  by destruct (h5_setitem _ _ _ _); intros [= <- <-].
Qed.

Ltac raised H :=
  injection H as <- <-;
  repeat split; try done; try discriminate; intros; discriminate.

(** What [copy_task] answers, and when. *)
Lemma copy_task_inv r taskInfo destinationOpen w res w' :
  copy_task ext inputs r taskInfo destinationOpen w = (res, w') ->
  spawned w' = spawned w
  /\ (files w !! statusFilePath taskInfo = None -> res = Ok false /\ w' = w)
  /\ (is_Some (files w !! statusFilePath taskInfo) ->
      res <> Ok false
      /\ (res = Ok true -> is_Some (files w !! outputFilePath taskInfo))).
Proof.
  unfold copy_task, mbind, M_bind, os_path_exists, h5_open_read, lift, raise.
  destruct (files w !! statusFilePath taskInfo) as [st|] eqn:Hst.
  2:{ rewrite bool_decide_false by (by intros [? ?]). simpl.
      intros [= <- <-]. split; [done|]. split; [done|]. by intros [? ?]. }
  rewrite bool_decide_true by eauto. simpl.
  intros H. assert (Hgoal : spawned w' = spawned w /\ res <> Ok false
                            /\ (res = Ok true ->
                                is_Some (files w !! outputFilePath taskInfo))).
  { destruct (files w !! outputFilePath taskInfo) as [out|] eqn:Hout.
    2:{ rewrite bool_decide_false in H by (by intros [? ?]). simpl in H.
        raised H. }
    rewrite bool_decide_true in H by eauto. simpl in H. rewrite Hout in H.
    destruct out as [| f | |]; [raised H| |raised H|raised H].
    destruct (check_result inputs f r) as [d|]; [|raised H].
    destruct (if destinationOpen then _ else _) as [[[]|] w1] eqn:Hopen.
    - assert (spawned w1 = spawned w).
      { destruct destinationOpen; [by injection Hopen as <-|].
        by eapply open_destination_spawned. }
      destruct (write_result _ _ _ _ w1) as [[[]|] w2] eqn:Hwrite;
        injection H as <- <-; apply write_result_spawned in Hwrite;
        (split; [congruence|split; [done|eauto]]).
    - injection H as <- <-. split; [|done].
      destruct destinationOpen; [done|]. by eapply open_destination_spawned. }
  destruct Hgoal as (? & ? & ?). split; [done|]. split; [done|]. done.
Qed.

Lemma copy_loop_step items finished_rois destinationOpen w res w' :
  copy_loop ext inputs items finished_rois destinationOpen w = (res, w') ->
  dest_step inputs (files w) (files w') /\ spawned w' = spawned w.
Proof.
  revert finished_rois destinationOpen w.
  induction items as [|[r ti] items IH]; intros fin b w; simpl.
  { intros [= <- <-]. split; [apply dest_step_refl|done]. }
  unfold mbind, M_bind.
  destruct (copy_task ext inputs r ti b w) as [[copied|e] w1] eqn:Hc.
  - pose proof (copy_task_step _ _ _ _ _ _ _ _ Hc) as Hstep.
    apply copy_task_inv in Hc as [Hsp _].
    destruct copied; intros H; apply IH in H as [Hstep' Hsp'];
      (split; [by eapply dest_step_trans|congruence]).
  - intros [= <- <-]. split; [by eapply copy_task_step|].
    by apply copy_task_inv in Hc as [? _].
Qed.

Lemma copy_loop_finished items finished_rois destinationOpen w fin w' :
  copy_loop ext inputs items finished_rois destinationOpen w = (Ok fin, w') ->
  exists new,
    fin = (finished_rois ++ new)%list
    /\ new `sublist_of` items.*1
    /\ (forall r taskInfo, (r, taskInfo) ∈ items ->
          is_Some (files w !! statusFilePath taskInfo) -> r ∈ new)
    /\ (forall r, r ∈ new ->
          exists taskInfo, (r, taskInfo) ∈ items
            /\ is_Some (files w' !! statusFilePath taskInfo)
            /\ is_Some (files w' !! outputFilePath taskInfo)).
Proof.
  revert finished_rois destinationOpen w.
  induction items as [|[r ti] items IH]; intros fin0 b w; simpl.
  { intros [= <- <-]. exists []. rewrite app_nil_r. split; [done|].
    split; [done|]. split; [intros r ti Hin|intros r Hin];
      by apply elem_of_nil in Hin. }
  unfold mbind, M_bind.
  destruct (copy_task ext inputs r ti b w) as [[copied|e] w1] eqn:Hc; [|done].
  pose proof (copy_task_step _ _ _ _ _ _ _ _ Hc) as Hstep.
  apply copy_task_inv in Hc as (_ & Hnone & Hsome).
  destruct copied; intros H;
    pose proof (copy_loop_step _ _ _ _ _ _ H) as [Hstep' _];
    destruct (IH _ _ _ H) as (new & -> & Hsub & Hall & Hnew).
  - assert (Hst : is_Some (files w !! statusFilePath ti)).
    { destruct (files w !! statusFilePath ti) eqn:E; [eauto|].
      by destruct (Hnone eq_refl). }
    destruct (Hsome Hst) as [_ Hout]. specialize (Hout eq_refl).
    exists (r :: new). rewrite <- app_assoc. split; [done|].
    split; [by apply sublist_skip|]. split.
    + intros r' ti' Hin Hm. apply elem_of_cons in Hin as [[= -> ->]|Hin]; [left|].
      right. eapply Hall; [done|]. by eapply dest_step_is_Some.
    + intros r' Hr'. apply elem_of_cons in Hr' as [->|Hr'].
      * exists ti. split; [left|]. split; eapply dest_step_is_Some; try done;
          by eapply dest_step_is_Some.
      * destruct (Hnew r' Hr') as (ti' & ? & ? & ?). exists ti'.
        split; [by right|done].
  - assert (Hst : files w !! statusFilePath ti = None).
    { destruct (files w !! statusFilePath ti) eqn:E; [|done].
      by destruct (Hsome (mk_is_Some _ _ eq_refl)). }
    exists new. split; [done|]. split; [by apply sublist_cons|]. split.
    + intros r' ti' Hin Hm. apply elem_of_cons in Hin as [[= -> ->]|Hin].
      * rewrite Hst in Hm. by destruct Hm.
      * eapply Hall; [done|]. by eapply dest_step_is_Some.
    + intros r' Hr'. destruct (Hnew r' Hr') as (ti' & ? & ? & ?). exists ti'.
      split; [by right|done].
Qed.

Lemma lookup_del_all (taskInfos : gmap roi TaskInfo) rois r :
  del_all taskInfos rois !! r = if decide (r ∈ rois) then None else taskInfos !! r.
Proof.
  unfold del_all. revert taskInfos.
  induction rois as [|r0 rois IH]; intros m; simpl; [done|].
  rewrite IH. destruct (decide (r ∈ rois)) as [Hin|Hin].
  - by rewrite decide_True by (by right).
  - destruct (decide (r = r0)) as [->|Hne].
    + rewrite decide_True by left. apply lookup_delete_eq.
    + rewrite decide_False by (by intros [?|?]%elem_of_cons).
      by apply lookup_delete_ne.
Qed.

Lemma poll_pass_inv taskInfos success w taskInfos' success' w' :
  poll_pass ext inputs taskInfos success w = (Ok (taskInfos', success'), w') ->
  exists finished_rois,
    _copyFinishedResults ext inputs taskInfos w = (Ok finished_rois, w')
    /\ taskInfos' = del_all taskInfos finished_rois
    /\ success' = success.
Proof.
  unfold poll_pass, mbind, M_bind.
  destruct (_copyFinishedResults ext inputs taskInfos w) as [[fin|e] w1]; [|done].
  intros [= <- <- <-]. by exists fin.
Qed.

End CopyFacts.

(** X10: whatever a pass of [_copyFinishedResults] returns or raises,
    it starts no process and changes no file but the consolidated
    output file, which it either leaves alone or leaves as an HDF5
    file: status and output files of the tasks are never removed. *)
Theorem copyFinishedResults_only_writes_output ext inputs taskInfos w res w' :
  _copyFinishedResults ext inputs taskInfos w = (res, w') ->
  spawned w' = spawned w
  /\ (forall path, path <> OutputFilePath inputs ->
        files w' !! path = files w !! path)
  /\ (files w' !! OutputFilePath inputs = files w !! OutputFilePath inputs
      \/ exists h, files w' !! OutputFilePath inputs = Some (H5File h)).
Proof.
  intros H. apply copy_loop_step in H as [[->|(h' & -> & _)] Hsp].
  - split; [done|]. split; [done|by left].
  - split; [done|]. split.
    + intros path Hne. by rewrite lookup_insert_ne.
    + right. exists h'. by rewrite lookup_insert_eq.
Qed.

Lemma copyFinishedResults_only_writes_output_witness :
  exists res w',
    _copyFinishedResults sample_ext (sample_inputs "run {args}" 2 600) sample_tasks
      (set_files (workers (result_env "float32") 0) empty_world) = (res, w')
    /\ spawned w' = []
    /\ files w' !! statusFilePath sample_task = Some (TextFile "Yay!").
Proof.
  destruct (_copyFinishedResults sample_ext (sample_inputs "run {args}" 2 600)
              sample_tasks (set_files (workers (result_env "float32") 0) empty_world))
    as [res w'] eqn:H.
  exists res, w'. split; [done|].
  destruct (copyFinishedResults_only_writes_output _ _ _ _ _ _ H) as (Hsp & Hother & _).
  split; [done|]. rewrite Hother by done. reflexivity.
Defined.

(** X11: a pass in which no task has written its status file finishes
    nothing and leaves the world as it is, whether or not output files
    are there; the round keeps every task and the value of [success]. *)
Theorem pass_without_markers ext inputs taskInfos success w :
  dict_order_ok ext ->
  no_markers taskInfos (files w) ->
  _copyFinishedResults ext inputs taskInfos w = (Ok [], w)
  /\ poll_pass ext inputs taskInfos success w = (Ok (taskInfos, success), w).
Proof.
  intros Hperm Hno. split; [|by apply poll_pass_no_markers].
  apply copy_loop_no_markers. intros r ti Hin. apply (Hno r).
  by apply (elem_of_dict_items ext).
Qed.

Lemma pass_without_markers_witness :
  _copyFinishedResults sample_ext (sample_inputs "run {args}" 2 600) sample_tasks
    {| files := {[ outputFilePath sample_task := TextFile "half" ]}; spawned := [] |}
  = (Ok [], {| files := {[ outputFilePath sample_task := TextFile "half" ]};
               spawned := [] |})
  /\ poll_pass sample_ext (sample_inputs "run {args}" 2 600) sample_tasks true
       {| files := {[ outputFilePath sample_task := TextFile "half" ]}; spawned := [] |}
     = (Ok (sample_tasks, true),
        {| files := {[ outputFilePath sample_task := TextFile "half" ]};
           spawned := [] |}).
Proof.
  apply (pass_without_markers sample_ext (sample_inputs "run {args}" 2 600)).
  - intros m. reflexivity.
  - intros r ti Hr. unfold sample_tasks in Hr.
    apply lookup_singleton_Some in Hr as [<- <-]. reflexivity.
Defined.

(** X12: a round that does not raise keeps the value of [success] and
    only removes tasks.  It removes every task whose status file was
    there when the round began, and every task it removes has, when the
    round ends, both its status file and its output file. *)
Theorem poll_pass_removes_marked_tasks ext inputs taskInfos success w
    taskInfos' success' w' :
  dict_order_ok ext ->
  poll_pass ext inputs taskInfos success w = (Ok (taskInfos', success'), w') ->
  success' = success
  /\ taskInfos' ⊆ taskInfos
  /\ (forall r taskInfo, taskInfos !! r = Some taskInfo ->
        is_Some (files w !! statusFilePath taskInfo) -> taskInfos' !! r = None)
  /\ (forall r taskInfo, taskInfos !! r = Some taskInfo -> taskInfos' !! r = None ->
        is_Some (files w' !! statusFilePath taskInfo)
        /\ is_Some (files w' !! outputFilePath taskInfo)).
Proof.
  intros Hperm H. apply poll_pass_inv in H as (fin & Hcopy & -> & ->).
  apply copy_loop_finished in Hcopy as (new & E & Hsub & Hall & Hnew).
  simpl in E. subst fin. split; [done|]. split; [|split].
  - apply map_subseteq_spec. intros r ti. rewrite lookup_del_all.
    by destruct (decide _).
  - intros r ti Hr Hm. rewrite lookup_del_all, decide_True; [done|].
    eapply Hall; [|done]. by apply elem_of_dict_items.
  - intros r ti Hr Hgone. rewrite lookup_del_all in Hgone.
    destruct (decide (r ∈ new)) as [Hin|Hin]; [|congruence].
    destruct (Hnew r Hin) as (ti' & Hin' & ? & ?).
    apply (elem_of_dict_items ext) in Hin'; [|done].
    by assert (ti' = ti) as -> by congruence.
Qed.

Lemma poll_pass_removes_marked_tasks_witness :
  exists taskInfos' success' w',
    poll_pass sample_ext (sample_inputs "run {args}" 2 600) sample_tasks true
      (set_files (workers (result_env "float32") 0) empty_world)
    = (Ok (taskInfos', success'), w')
    /\ success' = true /\ taskInfos' !! sample_roi = None.
Proof.
  destruct (poll_pass sample_ext (sample_inputs "run {args}" 2 600) sample_tasks true
              (set_files (workers (result_env "float32") 0) empty_world))
    as [[[t' s']|e] w'] eqn:H; [|by vm_compute in H].
  exists t', s', w'. split; [done|].
  destruct (poll_pass_removes_marked_tasks sample_ext _ _ _ _ _ _ _
              (fun m => reflexivity _) H) as (Hs & _ & Hrm & _).
  split; [done|]. apply (Hrm sample_roi sample_task); [reflexivity|].
  vm_compute. eauto.
Defined.

Section LoopFacts.

Context (ext : externals) (inputs : cluster_inputs) (env : environment).

Lemma del_all_subseteq (taskInfos : gmap roi TaskInfo) rois :
  del_all taskInfos rois ⊆ taskInfos.
Proof.
  apply map_subseteq_spec. intros r ti. rewrite lookup_del_all.
  by destruct (decide _).
Qed.




End LoopFacts.

(** X13: what the polling loop returns when it is entered with
    [success = True].  The tasks left are among those it began with,
    and either [success] is still true and no task is left, or it is
    false, tasks are left, and some timeout check read at least the
    timeout: nothing but the timeout turns a run into a failure that
    is returned. *)
Theorem execute_loop_result ext inputs env fuel n totalTimer taskInfos w
    success taskInfos' w' :
  execute_loop ext inputs env fuel n totalTimer taskInfos true w
  = Some (Ok (success, taskInfos'), w') ->
  taskInfos' ⊆ taskInfos
  /\ ((success = true /\ taskInfos' = ∅)
      \/ (success = false /\ taskInfos' <> ∅
          /\ exists m elapsed,
               (n <= m)%nat
               /\ Timer_seconds totalTimer (time_check env m) = Ok elapsed
               /\ TaskTimeoutSeconds inputs <= elapsed)).
Proof.
  revert n taskInfos w.
  induction fuel as [|fuel IH]; intros n tasks w; simpl;
    (case_bool_decide as Hsize;
     [intros [= <- <- <-]; split; [done|left; split; [done|]];
      by apply map_size_empty_iff|]);
    (destruct (Timer_seconds _ _) as [el|] eqn:Htime; [|done]);
    (destruct (_ <=? _) eqn:Hle;
     [intros [= <- <- <-]; split; [done|right; split; [done|]];
      split; [by intros ->|]; exists n, el; split; [done|];
      split; [done|by apply Z.leb_le]|]); [done|].
  destruct (poll_pass _ _ _ _ _) as [[[t' s']|e] w1] eqn:Hp; [|done].
  apply poll_pass_inv in Hp as (fin & _ & -> & ->). intros H.
  destruct (IH _ _ _ H) as [Hsub Hcase]. split.
  - etrans; [done|apply del_all_subseteq].
  - destruct Hcase as [?|(? & ? & m & el' & ? & ? & ?)]; [by left|right].
    split; [done|]. split; [done|]. exists m, el'. split; [lia|done].
Qed.

Lemma execute_loop_result_witness :
  sample_tasks ⊆ sample_tasks
  /\ ((false = true /\ sample_tasks = ∅)
      \/ (false = false /\ sample_tasks <> ∅
          /\ exists m elapsed,
               (0 <= m)%nat
               /\ Timer_seconds (Timer_enter (time_start idle_env) Timer_init)
                    (time_check idle_env m) = Ok elapsed
               /\ TaskTimeoutSeconds (sample_inputs "run {args}" 2 15) <= elapsed)).
Proof.
  apply (execute_loop_result sample_ext (sample_inputs "run {args}" 2 15) idle_env 5 0
           (Timer_enter (time_start idle_env) Timer_init) sample_tasks empty_world
           false sample_tasks empty_world).
  vm_compute. reflexivity.
Defined.



(** X15: the loop comes to an end: if the reading of some timeout
    check reaches the timeout, then with enough fuel for the rounds up
    to that check the loop has returned or raised. *)
Theorem execute_loop_ends_at_timeout ext inputs env fuel n m totalTimer taskInfos
    success w elapsed :
  Timer_seconds totalTimer (time_check env m) = Ok elapsed ->
  TaskTimeoutSeconds inputs <= elapsed ->
  (n <= m)%nat ->
  (m - n <= fuel)%nat ->
  is_Some (execute_loop ext inputs env fuel n totalTimer taskInfos success w).
Proof.
  intros Htime Hle. revert n taskInfos success w.
  induction fuel as [|fuel IH]; intros n tasks s w Hnm Hfuel; simpl;
    (case_bool_decide; [by eauto|]);
    (destruct (Timer_seconds totalTimer (time_check env n)) as [el|] eqn:Hn;
     [|by eauto]);
    (destruct (_ <=? _) eqn:Hcmp; [by eauto|]);
    apply Z.leb_gt in Hcmp;
    (assert (n <> m) by (intros ->; assert (el = elapsed) by congruence; lia)).
  - lia.
  - destruct (poll_pass _ _ _ _ _) as [[[t' s']|e] w1]; [|by eauto].
    apply IH; lia.
Qed.

Lemma execute_loop_ends_at_timeout_witness :
  is_Some (execute_loop sample_ext (sample_inputs "run {args}" 2 600) idle_env 40 0
             (Timer_enter (time_start idle_env) Timer_init) sample_tasks true
             empty_world).
Proof.
  apply (execute_loop_ends_at_timeout sample_ext (sample_inputs "run {args}" 2 600)
           idle_env 40 0 40 (Timer_enter (time_start idle_env) Timer_init)
           sample_tasks true empty_world 600).
  - reflexivity.
  - simpl. lia.
  - lia.
  - lia.
Defined.

Lemma copy_task_merge ext inputs r taskInfo w f node_result h0 dest' :
  is_Some (files w !! statusFilePath taskInfo) ->
  files w !! outputFilePath taskInfo = Some (H5File f) ->
  check_result inputs f r = Ok node_result ->
  (files w !! OutputFilePath inputs = None /\ h0 = ∅)
  \/ files w !! OutputFilePath inputs = Some (H5File h0) ->
  h5_setitem ext (default (new_cluster_result inputs) (h0 !! "cluster_result"))
             (subregion taskInfo) node_result = Ok dest' ->
  copy_task ext inputs r taskInfo false w
  = (Ok true,
     set_files (insert (OutputFilePath inputs)
                  (H5File (<["cluster_result" := dest']> h0))) w).
Proof.
  intros Hst Hout Hcheck Hdest Hset.
  unfold copy_task, mbind, M_bind, os_path_exists, h5_open_read, lift, raise.
  rewrite bool_decide_true by done. simpl. rewrite Hout.
  rewrite bool_decide_true by eauto. simpl. rewrite Hout, Hcheck.
  unfold open_destination, write_result, set_files.
  destruct Hdest as [[Hnone ->]|Hsome].
  - rewrite Hnone. simpl. rewrite lookup_insert_eq, lookup_singleton_eq.
    rewrite lookup_empty in Hset. simpl in Hset. rewrite Hset.
    unfold mret, M_ret. simpl.
    by rewrite insert_insert_eq, insert_singleton_eq, insert_empty.
  - rewrite Hsome. destruct (h0 !! "cluster_result") as [dest|] eqn:Hcr.
    + simpl in Hset. rewrite Hsome, Hcr, Hset. done.
    + simpl in *. rewrite lookup_insert_eq, lookup_insert_eq, Hset.
      unfold mret, M_ret. simpl.
      by rewrite insert_insert_eq, insert_insert_eq.
Qed.

(** X16: the first result to be merged creates the consolidated output
    file, with a dataset [cluster_result] of the shape and element type
    of the input, and stores the task's region in it; later results are
    stored in the dataset that is there.  The task is then reported as
    finished. *)
Theorem copy_task_merges_result ext inputs r taskInfo w f node_result h0 dest' :
  is_Some (files w !! statusFilePath taskInfo) ->
  files w !! outputFilePath taskInfo = Some (H5File f) ->
  check_result inputs f r = Ok node_result ->
  (files w !! OutputFilePath inputs = None /\ h0 = ∅)
  \/ files w !! OutputFilePath inputs = Some (H5File h0) ->
  h5_setitem ext (default (new_cluster_result inputs) (h0 !! "cluster_result"))
             (subregion taskInfo) node_result = Ok dest' ->
  copy_task ext inputs r taskInfo false w
  = (Ok true,
     set_files (insert (OutputFilePath inputs)
                  (H5File (<["cluster_result" := dest']> h0))) w).
Proof. apply copy_task_merge. Qed.

Lemma copy_task_merges_result_witness :
  exists dest',
    copy_task sample_ext (sample_inputs "run {args}" 2 600) sample_roi sample_task false
      (set_files (workers (result_env "float32") 0) empty_world)
    = (Ok true,
       set_files (insert "/out.h5" (H5File (<["cluster_result" := dest']> ∅)))
         (set_files (workers (result_env "float32") 0) empty_world)).
Proof.
  eexists.
  apply (copy_task_merges_result sample_ext (sample_inputs "run {args}" 2 600)
           sample_roi sample_task
           (set_files (workers (result_env "float32") 0) empty_world)
           {[ "node_result" := sample_result "float32" ]}
           (sample_result "float32") ∅).
  - vm_compute. eauto.
  - vm_compute. reflexivity.
  - vm_compute. reflexivity.
  - left. split; reflexivity.
  - vm_compute. reflexivity.
Defined.

(** ** More on the worker *)

Lemma status_never_output dir name roiStr name' roiStr' :
  os_path_join dir (status_file_name name roiStr)
  <> os_path_join dir (output_file_name name' roiStr').
Proof.
  intros Heq. apply (f_equal str_last) in Heq.
  unfold status_file_name, output_file_name in Heq.
  rewrite !str_last_join in Heq by (by repeat apply str_app_nonempty).
  rewrite !str_last_app in Heq by (by repeat apply str_app_nonempty).
  discriminate.
Qed.

(** X17: the coordinator and the worker agree on the files: for every
    prepared task, a worker that is given the scratch directory, the
    task's name and a region string that loads back to the task's
    region writes its output and its status file at exactly the paths
    the coordinator polls; and no status path of a prepared task is the
    output path of a prepared task. *)
Theorem worker_paths_agree ext inputs w tasks w' r taskInfo Roi_loads
    tempDir node_result write_blocks copy_blocks :
  _prepareTaskInfos ext inputs w = (Ok tasks, w') ->
  tasks !! r = Some taskInfo ->
  Roi_loads (Roi_dumps ext (subregion taskInfo)) = subregion taskInfo ->
  wk_statusFilePath (worker_of ext inputs Roi_loads taskInfo tempDir node_result
                               write_blocks copy_blocks)
  = statusFilePath taskInfo
  /\ wk_outputFilePath (worker_of ext inputs Roi_loads taskInfo tempDir node_result
                                  write_blocks copy_blocks)
     = outputFilePath taskInfo
  /\ forall r' taskInfo', tasks !! r' = Some taskInfo' ->
       statusFilePath taskInfo <> outputFilePath taskInfo'.
Proof.
  intros Hprep Hr Hloads.
  destruct (prepareTaskInfos_inv _ _ _ _ _ Hprep) as (rois & _ & Hnd & Hsnd & Hloop).
  assert (Hnd' : NoDup (zip (seq 0 (length rois)) rois).*2) by (by rewrite Hsnd).
  destruct (prepare_loop_tasks _ _ _ _ _ _ _ Hloop Hnd') as (_ & Hout & _ & Hin').
  assert (Hform : forall r1 t1, tasks !! r1 = Some t1 ->
                    exists i cmd, t1 = mk_task inputs i r1 cmd).
  { intros r1 t1 H1.
    destruct (decide (r1 ∈ (zip (seq 0 (length rois)) rois).*2)) as [Hr'|Hr'].
    - destruct (Hin' r1 Hr') as (i & cmd & _ & Ht). exists i, cmd. congruence.
    - rewrite Hout in H1 by done. by rewrite lookup_empty in H1. }
  destruct (Hform _ _ Hr) as (i & cmd & ->).
  unfold wk_statusFilePath, wk_outputFilePath, worker_of. simpl in *.
  rewrite Hloads. split; [done|]. split; [done|].
  intros r' ti' Hr'. destruct (Hform _ _ Hr') as (j & cmd' & ->). simpl.
  apply status_never_output.
Qed.

Lemma worker_paths_agree_witness :
  exists tasks w' taskInfo,
    _prepareTaskInfos sample_ext (sample_inputs "run {args}" 2 600) empty_world
    = (Ok tasks, w')
    /\ tasks !! sample_roi = Some taskInfo
    /\ wk_statusFilePath (worker_of sample_ext (sample_inputs "run {args}" 2 600)
                            (fun _ => sample_roi) taskInfo "/tmp/tmpA"
                            (sample_result "float32") 2 1)
       = statusFilePath taskInfo.
Proof.
  destruct (_prepareTaskInfos sample_ext (sample_inputs "run {args}" 2 600) empty_world)
    as [[tasks|e] w'] eqn:Hprep; [|by vm_compute in Hprep].
  destruct (tasks !! sample_roi) as [taskInfo|] eqn:Hr;
    [|vm_compute in Hprep; injection Hprep as <- <-; by vm_compute in Hr].
  exists tasks, w', taskInfo. split; [done|]. split; [done|].
  apply (worker_paths_agree sample_ext (sample_inputs "run {args}" 2 600) empty_world
           tasks w' sample_roi taskInfo (fun _ => sample_roi) "/tmp/tmpA"
           (sample_result "float32") 2 1 Hprep Hr).
  vm_compute in Hprep. injection Hprep as <- <-. vm_compute in Hr.
  injection Hr as <-. reflexivity.
Defined.

Section WorkerFacts.

Context (run : worker_run).

Lemma run_steps_lookup steps (fs : gmap string file) path :
  (forall f fs', f ∈ steps -> f fs' !! path = fs' !! path) ->
  run_steps steps fs !! path = fs !! path.
Proof.
  revert fs. induction steps as [|f steps IH]; intros fs Hkeep; [done|].
  simpl. rewrite IH by (intros g fs' Hg; apply Hkeep; by right).
  apply Hkeep. left.
Qed.

Lemma run_steps_is_Some steps (fs : gmap string file) path :
  (forall f fs', f ∈ steps -> is_Some (fs' !! path) -> is_Some (f fs' !! path)) ->
  is_Some (fs !! path) -> is_Some (run_steps steps fs !! path).
Proof.
  revert fs. induction steps as [|f steps IH]; intros fs Hkeep Hsome; [done|].
  simpl. apply IH; [intros g fs' Hg; apply Hkeep; by right|].
  apply Hkeep; [left|done].
Qed.

(** Every step stores something at one of the four paths. *)
Lemma worker_step_cases f :
  f ∈ worker_steps run ->
  (exists path x, path ∈ worker_paths run /\ f = insert path x)
  \/ f = (fun fs => match fs !! wk_tmpOutputFile run with
                    | Some x => <[wk_outputFilePath run := x]> fs
                    | None => fs
                    end).
Proof.
  unfold worker_steps, worker_paths. rewrite !elem_of_app, !list_elem_of_fmap.
  intros [Hf|[(i & -> & _)|[Hf|[(i & -> & _)|[Hf|Hf]]]]].
  - apply list_elem_of_singleton in Hf as ->. left. do 2 eexists. split; [|done].
    set_solver.
  - left. do 2 eexists. split; [|done]. set_solver.
  - apply list_elem_of_singleton in Hf as ->. left. do 2 eexists. split; [|done].
    set_solver.
  - left. do 2 eexists. split; [|done]. set_solver.
  - apply list_elem_of_singleton in Hf as ->. by right.
  - left. apply elem_of_cons in Hf as [->|Hf];
      [|apply list_elem_of_singleton in Hf as ->];
      do 2 eexists; (split; [|done]); set_solver.
Qed.

Lemma elem_of_take_steps {A} (l : list A) n x : x ∈ take n l -> x ∈ l.
Proof.
  intros H. rewrite <- (take_drop n l). apply elem_of_app. by left.
Qed.

End WorkerFacts.

(** X18: a worker touches four paths only - its temporary directory,
    the temporary file, the output file and the status file - and
    removes nothing: in every state of its run every other path is as
    it was, and whatever existed still exists.  It does not clean up:
    when it is through, the temporary file is still there, with the
    complete result. *)
Theorem worker_touches_four_paths run fs0 n :
  private_tmp run ->
  (forall path, path ∉ worker_paths run ->
     worker_state run n fs0 !! path = fs0 !! path)
  /\ (forall path, is_Some (fs0 !! path) -> is_Some (worker_state run n fs0 !! path))
  /\ ((length (worker_steps run) <= n)%nat ->
      worker_state run n fs0 !! wk_tmpOutputFile run = Some (wk_result_file run)).
Proof.
  intros (Hd1 & Hd2 & Ht1 & Ht2). split; [|split].
  - intros path Hpath. apply run_steps_lookup. intros f fs Hf.
    apply elem_of_take_steps, worker_step_cases in Hf as [(p & x & Hp & ->)| ->].
    + apply lookup_insert_ne. by intros ->.
    + destruct (fs !! wk_tmpOutputFile run); [|done].
      apply lookup_insert_ne. intros <-. apply Hpath. unfold worker_paths.
      set_solver.
  - intros path Hsome. apply run_steps_is_Some; [|done]. intros f fs Hf Hfs.
    apply elem_of_take_steps, worker_step_cases in Hf as [(p & x & Hp & ->)| ->].
    + rewrite lookup_insert. case_decide; [eauto|done].
    + destruct (fs !! wk_tmpOutputFile run); [|done].
      rewrite lookup_insert. case_decide; [eauto|done].
  - intros Hn. unfold worker_state. rewrite take_ge by done.
    unfold worker_steps. do 3 rewrite run_steps_app.
    rewrite run_steps_lookup.
    + unfold run_steps at 1. simpl. apply lookup_insert_eq.
    + intros f fs Hf. rewrite !elem_of_app, list_elem_of_fmap in Hf.
      destruct Hf as [(i & -> & _)|[Hf|Hf]].
      * by apply lookup_insert_ne.
      * apply list_elem_of_singleton in Hf as ->.
        destruct (fs !! wk_tmpOutputFile run) eqn:E; [|done].
        by rewrite lookup_insert_ne.
      * apply elem_of_cons in Hf as [->|Hf];
          [|apply list_elem_of_singleton in Hf as ->];
          by apply lookup_insert_ne.
Qed.

Lemma worker_touches_four_paths_witness :
  (forall path, path ∉ worker_paths sample_worker ->
     worker_state sample_worker 10 {[ "/scratch/other" := TextFile "x" ]} !! path
     = ({[ "/scratch/other" := TextFile "x" ]} : gmap string file) !! path)
  /\ (forall path,
        is_Some (({[ "/scratch/other" := TextFile "x" ]} : gmap string file) !! path) ->
        is_Some (worker_state sample_worker 10 {[ "/scratch/other" := TextFile "x" ]}
                 !! path))
  /\ ((length (worker_steps sample_worker) <= 10)%nat ->
      worker_state sample_worker 10 {[ "/scratch/other" := TextFile "x" ]}
      !! wk_tmpOutputFile sample_worker = Some (wk_result_file sample_worker)).
Proof.
  apply (worker_touches_four_paths sample_worker).
  repeat split; vm_compute; congruence.
Defined.

(** ** Coordinator and worker together *)

(** While a worker runs, the status file is there only once the output
    file is the complete result. *)
Lemma worker_marker_means_output run fs0 n :
  fs0 !! wk_statusFilePath run = None ->
  private_tmp run ->
  (is_Some (worker_state run n fs0 !! wk_statusFilePath run) ->
   worker_state run n fs0 !! wk_outputFilePath run = Some (wk_result_file run))
  /\ ((length (worker_steps run) <= n)%nat ->
      is_Some (worker_state run n fs0 !! wk_statusFilePath run)).
Proof.
  intros Hfresh (Hd1 & Hd2 & Ht1 & Ht2).
  assert (Hso : wk_statusFilePath run <> wk_outputFilePath run)
    by apply status_output_distinct.
  set (Inv := fun fs : gmap string file =>
                is_Some (fs !! wk_statusFilePath run) ->
                fs !! wk_outputFilePath run = Some (wk_result_file run)).
  set (Q1 := fun fs : gmap string file => fs !! wk_statusFilePath run = None).
  set (Q2 := fun fs : gmap string file =>
               fs !! wk_statusFilePath run = None
               /\ fs !! wk_tmpOutputFile run = Some (wk_result_file run)).
  set (Q3 := fun fs : gmap string file =>
               fs !! wk_outputFilePath run = Some (wk_result_file run)).
  set (Q4 := fun fs : gmap string file =>
               Q3 fs /\ is_Some (fs !! wk_statusFilePath run)).
  assert (I1 : forall fs, Q1 fs -> Inv fs).
  { intros fs Hs. unfold Inv. rewrite Hs. by intros [? ?]. }
  assert (I2 : forall fs, Q2 fs -> Inv fs) by (intros fs [Hs _]; by apply I1).
  assert (I3 : forall fs, Q3 fs -> Inv fs) by (by intros fs Ho _).
  assert (I4 : forall fs, Q4 fs -> Inv fs) by (intros fs [Ho _]; by apply I3).
  assert (Hall : along Q1 (worker_steps run) Inv Q4).
  { unfold worker_steps.
    apply (along_app Q1 Q1); [|apply (along_app Q1 Q1); [|apply (along_app Q1 Q2);
      [|apply (along_app Q2 Q2); [|apply (along_app Q2 Q3)]]]].
    - apply along_step; [done| |done]. intros fs Hs.
      unfold Q1. by rewrite lookup_insert_ne.
    - apply along_preserved; [|done]. intros f fs Hf Hs.
      apply list_elem_of_fmap in Hf as (i & -> & _).
      unfold Q1. by rewrite lookup_insert_ne.
    - apply along_step; [done| |done]. intros fs Hs.
      split; [by rewrite lookup_insert_ne|by rewrite lookup_insert_eq].
    - apply along_preserved; [|done]. intros f fs Hf [Hs Ht].
      apply list_elem_of_fmap in Hf as (i & -> & _).
      split; by rewrite lookup_insert_ne.
    - apply along_step; [done| |done]. intros fs [Hs Ht]. rewrite Ht.
      unfold Q3. by rewrite lookup_insert_eq.
    - apply (along_app Q3 Q4 Q4 _ [_] [_]).
      + apply along_step; [done| |done]. intros fs Ho.
        split; [unfold Q3; by rewrite lookup_insert_ne|].
        rewrite lookup_insert_eq. eauto.
      + apply along_step; [done| |done]. intros fs [Ho _].
        split; [unfold Q3; by rewrite lookup_insert_ne|].
        rewrite lookup_insert_eq. eauto. }
  destruct (Hall fs0) as [Hinv Hend]; [done|].
  split; [apply Hinv|]. intros Hn. unfold worker_state.
  rewrite take_ge by done. by destruct Hend as [_ Hs].
Qed.

(** X19: the coordinator can look at a task at any moment of the run of
    a worker whose result passes the checks: it never raises and never
    reads an unfinished file.  Either the status file is not there yet
    and the task is skipped with nothing changed, or the complete
    result is merged; and once the worker is through, it is merged. *)
Theorem poll_during_worker_run ext inputs r taskInfo run fs0 n w node_result h0 dest' :
  wk_statusFilePath run = statusFilePath taskInfo ->
  wk_outputFilePath run = outputFilePath taskInfo ->
  private_tmp run ->
  OutputFilePath inputs ∉ worker_paths run ->
  fs0 !! statusFilePath taskInfo = None ->
  (fs0 !! OutputFilePath inputs = None /\ h0 = ∅)
  \/ fs0 !! OutputFilePath inputs = Some (H5File h0) ->
  check_result inputs {[ "node_result" := wk_node_result run ]} r = Ok node_result ->
  h5_setitem ext (default (new_cluster_result inputs) (h0 !! "cluster_result"))
             (subregion taskInfo) node_result = Ok dest' ->
  files w = worker_state run n fs0 ->
  (copy_task ext inputs r taskInfo false w = (Ok false, w)
   /\ files w !! statusFilePath taskInfo = None
   \/ copy_task ext inputs r taskInfo false w
      = (Ok true,
         set_files (insert (OutputFilePath inputs)
                      (H5File (<["cluster_result" := dest']> h0))) w))
  /\ ((length (worker_steps run) <= n)%nat ->
      copy_task ext inputs r taskInfo false w
      = (Ok true,
         set_files (insert (OutputFilePath inputs)
                      (H5File (<["cluster_result" := dest']> h0))) w)).
Proof.
  intros Hst Hout Hpriv Hdistinct Hfresh Hdest Hcheck Hset Hw.
  rewrite <- Hst in Hfresh.
  destruct (worker_marker_means_output run fs0 n Hfresh Hpriv) as [Hinv Hend].
  assert (Hsame : files w !! OutputFilePath inputs = fs0 !! OutputFilePath inputs).
  { rewrite Hw. apply run_steps_lookup. intros f fs Hf.
    apply elem_of_take_steps, worker_step_cases in Hf as [(p & x & Hp & ->)| ->].
    - apply lookup_insert_ne. by intros ->.
    - destruct (fs !! wk_tmpOutputFile run); [|done].
      apply lookup_insert_ne. intros Heq. apply Hdistinct. rewrite <- Heq.
      unfold worker_paths. set_solver. }
  assert (Hmerge : is_Some (files w !! statusFilePath taskInfo) ->
            copy_task ext inputs r taskInfo false w
            = (Ok true,
               set_files (insert (OutputFilePath inputs)
                            (H5File (<["cluster_result" := dest']> h0))) w)).
  { intros Hmark.
    apply (copy_task_merge ext inputs r taskInfo w
             {[ "node_result" := wk_node_result run ]} node_result h0 dest');
      [done| |done|by rewrite Hsame|done].
    rewrite Hw, <- Hout. apply Hinv. by rewrite Hst, <- Hw. }
  split.
  - destruct (files w !! statusFilePath taskInfo) as [x|] eqn:Hmark.
    + right. apply Hmerge. eauto.
    + left. split; [|done].
      unfold copy_task, os_path_exists. unfold mbind, M_bind. rewrite Hmark.
      by rewrite bool_decide_false by (by intros [? ?]).
  - intros Hn. apply Hmerge. rewrite Hw, <- Hst. by apply Hend.
Qed.

Lemma poll_during_worker_run_witness :
  exists dest',
    copy_task sample_ext (sample_inputs "run {args}" 2 600) sample_roi sample_task false
      (set_files (fun _ => worker_state sample_worker 10 ∅) empty_world)
    = (Ok true,
       set_files (insert "/out.h5" (H5File (<["cluster_result" := dest']> ∅)))
         (set_files (fun _ => worker_state sample_worker 10 ∅) empty_world)).
Proof.
  eexists.
  refine (proj2 (poll_during_worker_run sample_ext (sample_inputs "run {args}" 2 600)
                   sample_roi sample_task sample_worker ∅ 10
                   (set_files (fun _ => worker_state sample_worker 10 ∅) empty_world)
                   (sample_result "float32") ∅ _ _ _ _ _ _ _ _ _ _) _).
  - reflexivity.
  - reflexivity.
  - repeat split; vm_compute; congruence.
  - apply (bool_decide_unpack _). by vm_compute.
  - reflexivity.
  - left. split; reflexivity.
  - vm_compute. reflexivity.
  - vm_compute. reflexivity.
  - reflexivity.
  - vm_compute. lia.
Defined.
